(** * pkg/sqlite/query.go: the SQL querier of the operator registry

  A shallow embedding of [SQLQuerier] and of the nine read operations it
  implements, together with the relational evaluation of the SQL text each
  operation submits.  Tables are bags of rows in storage order; a column is
  a nullable value ([option]); comparisons follow SQL's three-valued logic
  (a comparison with NULL is never true), while [DISTINCT] and [GROUP BY]
  treat NULL as equal to NULL. *)

From Stdlib Require Import List String ZArith Bool Lia.
Import ListNotations.

Set Implicit Arguments.

(** ** Column values and SQL comparison *)

Module Sql.

(** [a = b] inside [ON] or [WHERE]: true only when both sides are present
    and equal. *)
Definition eq_text (a b : option string) : bool :=
  match a, b with
  | Some x, Some y => String.eqb x y
  | _, _ => false
  end.

Definition eq_int (a b : option Z) : bool :=
  match a, b with
  | Some x, Some y => Z.eqb x y
  | _, _ => false
  end.

(** [column = ?] where the parameter is a Go [string] (never NULL). *)
Definition is_text (a : option string) (p : string) : bool :=
  eq_text a (Some p).

Definition text_dec : forall a b : option string, {a = b} + {a <> b}.
Proof. decide equality; apply string_dec. Defined.

Definition int_dec : forall a b : option Z, {a = b} + {a <> b}.
Proof. decide equality; apply Z.eq_dec. Defined.

(** *** Relational operators

    Joins are evaluated as nested loops in [FROM] order, the left table
    outermost; the order of the rows a query yields is the order these
    loops produce. *)

Definition inner_join {A B} (on : A -> B -> bool)
           (l : list A) (r : list B) : list (A * B) :=
  flat_map (fun a => map (pair a) (filter (on a) r)) l.

(** A left row without partner is kept once, with an all-NULL right side
    ([None]). *)
Definition left_outer_join {A B} (on : A -> B -> bool)
           (l : list A) (r : list B) : list (A * option B) :=
  flat_map (fun a =>
              match filter (on a) r with
              | [] => [(a, None)]
              | ms => map (fun b => (a, Some b)) ms
              end) l.

(** [SELECT DISTINCT]: the first occurrence of every row is kept. *)
Fixpoint distinct_from {A} (dec : forall x y : A, {x = y} + {x <> y})
         (seen l : list A) : list A :=
  match l with
  | [] => []
  | x :: l' =>
      if in_dec dec x seen then distinct_from dec seen l'
      else x :: distinct_from dec (x :: seen) l'
  end.

Definition distinct {A} (dec : forall x y : A, {x = y} + {x <> y})
           (l : list A) : list A :=
  distinct_from dec [] l.

Definition limit {A} (n : nat) (l : list A) : list A := firstn n l.

(** [GROUP BY]: one group per distinct key, each holding its rows in scan
    order. *)
Definition group_by {A K} (dec : forall x y : K, {x = y} + {x <> y})
           (key : A -> K) (l : list A) : list (list A) :=
  map (fun k => filter (fun x => if dec (key x) k then true else false) l)
      (distinct dec (map key l)).

(** [MIN(col)] as the only aggregate of a query: the engine steps through
    the rows of a group keeping the best value so far; the bare columns of
    the result are reloaded from a row unless the step skips the load,
    which it does for a NULL when a best value exists and for a value that
    is not smaller than the best. *)
Definition min_step {A} (col : A -> option Z)
           (st : option A * option Z) (x : A) : option A * option Z :=
  match col x, snd st with
  | None, Some _ => st
  | None, None => (Some x, None)
  | Some v, Some b => if (v <? b)%Z then (Some x, Some v) else st
  | Some v, None => (Some x, Some v)
  end.

Definition min_agg {A} (col : A -> option Z) (g : list A)
  : option A * option Z :=
  fold_left (min_step col) g (None, None).

(** The result rows of [SELECT bare..., MIN(col) ... GROUP BY key]. *)
Definition group_min {A K} (dec : forall x y : K, {x = y} + {x <> y})
           (key : A -> K) (col : A -> option Z) (l : list A)
  : list (A * option Z) :=
  flat_map (fun g => match min_agg col g with
                     | (Some x, m) => [(x, m)]
                     | (None, _) => []
                     end)
           (group_by dec key l).

End Sql.

(** ** database/sql: nullable scan targets and the row cursor *)

Module NullString.
Record t := { String : string; Valid : bool }.

(** [Scan] on a [NullString]: NULL leaves the zero string and [Valid = false]. *)
Definition Scan (v : option string) : t :=
  match v with
  | Some s => {| String := s; Valid := true |}
  | None => {| String := EmptyString; Valid := false |}
  end.
End NullString.

Module NullInt64.
Record t := { Int64 : Z; Valid : bool }.

Definition Scan (v : option Z) : t :=
  match v with
  | Some z => {| Int64 := z; Valid := true |}
  | None => {| Int64 := 0%Z; Valid := false |}
  end.
End NullInt64.

(** A Go [error] value: the messages built with [fmt.Errorf] for the "no
  row" cases, and the errors handed back by the driver. *)
Inductive error : Type :=
| NotFound (msg : string)
| DriverError (msg : string).

(** What [rows.Scan] gives for one row of the cursor: the column values, or
  the driver's error. *)
Inductive scanned (A : Type) : Type :=
| ScanOk (a : A)
| ScanErr (e : error).

Arguments ScanErr {A} e.

Definition Rows (A : Type) : Type := list (scanned A).

(** The cursor [QueryContext] returns over the rows a query selects. *)
Definition cursor {A} (rs : list A) : Rows A := map (@ScanOk A) rs.

(** ** The catalog store *)

(** Modelled from the spec: the table declarations are not part of
    query.go; the columns are those of the logical schema and those the
    queries name.  Text columns are nullable strings; the entry identifiers,
    [replaces] and [depth] are nullable integers.  Table [package]. *)
Record package_row : Type := {
  package_name : option string;
  package_default_channel : option string
}.

(** Modelled from the spec: table [channel]. *)
Record channel_row : Type := {
  channel_name : option string;
  channel_package_name : option string;
  channel_head_operatorbundle_name : option string
}.

(** Modelled from the spec: table [operatorbundle]; [bundle] is the
    payload. *)
Record operatorbundle_row : Type := {
  operatorbundle_name : option string;
  operatorbundle_bundle : option string
}.

(** Modelled from the spec: table [channel_entry]; [replaces] holds the
    [entry_id] of the entry this one replaces. *)
Record channel_entry_row : Type := {
  entry_id : option Z;
  entry_channel_name : option string;
  entry_package_name : option string;
  entry_operatorbundle_name : option string;
  entry_replaces : option Z;
  entry_depth : option Z
}.

(** Modelled from the spec: table [api_provider]. *)
Record api_provider_row : Type := {
  provider_groupOrName : option string;
  provider_version : option string;
  provider_kind : option string;
  provider_channel_entry_id : option Z
}.

(** The opened database: the five tables, each in storage order. *)
Record DB : Type := {
  package : list package_row;
  channel : list channel_row;
  operatorbundle : list operatorbundle_row;
  channel_entry : list channel_entry_row;
  api_provider : list api_provider_row
}.

Record SQLQuerier : Type := { db : DB }.

(** ** pkg/registry: the values the operations return *)

(** Modelled from the spec: the manifest and channel entry types are
    declared in pkg/registry; the fields are the ones query.go fills in. *)
Record PackageChannel : Type := {
  Name : string;
  CurrentCSVName : string
}.

Record PackageManifest : Type := {
  PackageName : string;
  DefaultChannelName : string;
  Channels : list PackageChannel
}.

Module ChannelEntry.
Record t : Type := {
  PackageName : string;
  ChannelName : string;
  BundleName : string;
  Replaces : string
}.
End ChannelEntry.

(** Decidable equality of projected rows, for [DISTINCT]. *)

Definition row2_dec :
  forall a b : option string * option Z, {a = b} + {a <> b}.
Proof. decide equality; [apply Sql.int_dec | apply Sql.text_dec]. Defined.

Definition key_dec :
  forall a b : option string * option string, {a = b} + {a <> b}.
Proof. decide equality; apply Sql.text_dec. Defined.

Definition row3_dec :
  forall a b : option string * option string * option string,
    {a = b} + {a <> b}.
Proof. decide equality; [apply Sql.text_dec | apply key_dec]. Defined.

Definition row4_dec :
  forall a b : option string * option string * option string * option string,
    {a = b} + {a <> b}.
Proof. decide equality; [apply Sql.text_dec | apply row3_dec]. Defined.

Definition row5_dec :
  forall a b : option string * option string * option string * option string
               * option Z,
    {a = b} + {a <> b}.
Proof. decide equality; [apply Sql.int_dec | apply row4_dec]. Defined.

(** A column of the right-hand side of a [LEFT OUTER JOIN]: NULL when the
    left row found no partner. *)
Definition outer {A B} (f : A -> option B) (r : option A) : option B :=
  match r with
  | Some x => f x
  | None => None
  end.

(** ** ListPackages *)

(** [SELECT DISTINCT name FROM package] *)
Definition ListPackages_query (d : DB) : list (option string) :=
  Sql.distinct Sql.text_dec (map package_name (package d)).

(** The [for rows.Next()] loop; [packages] is the slice built so far. *)
Fixpoint ListPackages_scan (rows : Rows (option string))
         (packages : list string) : list string * option error :=
  match rows with
  | [] => (packages, None)
  | ScanErr e :: _ => ([], Some e)
  | ScanOk v :: rows' =>
      let pkgName := NullString.Scan v in
      if NullString.Valid pkgName
      then ListPackages_scan rows' (packages ++ [NullString.String pkgName])
      else ListPackages_scan rows' packages
  end.

Definition ListPackages (s : SQLQuerier) : list string * option error :=
  ListPackages_scan (cursor (ListPackages_query (db s))) [].

(** ** GetPackage *)

Definition package_channel_row : Type :=
  (option string * option string * option string * option string)%type.

(** [SELECT DISTINCT package.name, default_channel, channel.name,
     channel.head_operatorbundle_name
     FROM package INNER JOIN channel ON channel.package_name=package.name
     WHERE package.name=?] *)
Definition GetPackage_query (d : DB) (name : string)
  : list package_channel_row :=
  Sql.distinct row4_dec
    (map (fun pc : package_row * channel_row =>
            (package_name (fst pc), package_default_channel (fst pc),
             channel_name (snd pc),
             channel_head_operatorbundle_name (snd pc)))
       (filter (fun pc : package_row * channel_row =>
                  Sql.is_text (package_name (fst pc)) name)
          (Sql.inner_join
             (fun p c =>
                Sql.eq_text (channel_package_name c) (package_name p))
             (package d) (channel d)))).

Definition scan_channel (r : package_channel_row) : PackageChannel :=
  let '(_, _, channelName, bundleName) := r in
  {| Name := NullString.String (NullString.Scan channelName);
     CurrentCSVName := NullString.String (NullString.Scan bundleName) |}.

Definition GetPackage_scan (rows : Rows package_channel_row) (name : string)
  : option PackageManifest * option error :=
  match rows with
  | [] => (None, Some (NotFound ("package " ++ name ++ " not found")))
  | ScanErr e :: _ => (None, Some e)
  | ScanOk r :: rest =>
      let '(pkgName, defaultChannel, _, _) := r in
      let pkg :=
        {| PackageName := NullString.String (NullString.Scan pkgName);
           DefaultChannelName :=
             NullString.String (NullString.Scan defaultChannel);
           Channels := [scan_channel r] |} in
      match rest with
      | [] => (Some pkg, None)
      | ScanErr e :: _ => (None, Some e)
      | ScanOk r' :: _ =>
          (Some {| PackageName := PackageName pkg;
                   DefaultChannelName := DefaultChannelName pkg;
                   Channels := Channels pkg ++ [scan_channel r'] |}, None)
      end
  end.

Definition GetPackage (s : SQLQuerier) (name : string)
  : option PackageManifest * option error :=
  GetPackage_scan (cursor (GetPackage_query (db s) name)) name.

(** ** GetBundleForChannel *)

(** [SELECT DISTINCT operatorbundle.bundle
     FROM channel INNER JOIN operatorbundle
       ON channel.head_operatorbundle_name=operatorbundle.name
     WHERE channel.package_name=? AND channel.name=? LIMIT 1] *)
Definition GetBundleForChannel_query (d : DB) (pkgName channelName : string)
  : list (option string) :=
  Sql.limit 1
    (Sql.distinct Sql.text_dec
       (map (fun cb : channel_row * operatorbundle_row =>
               operatorbundle_bundle (snd cb))
          (filter (fun cb : channel_row * operatorbundle_row =>
                     Sql.is_text (channel_package_name (fst cb)) pkgName
                     && Sql.is_text (channel_name (fst cb)) channelName)
             (Sql.inner_join
                (fun c b =>
                   Sql.eq_text (channel_head_operatorbundle_name c)
                               (operatorbundle_name b))
                (channel d) (operatorbundle d))))).

Definition GetBundleForChannel_scan (rows : Rows (option string))
           (pkgName channelName : string) : string * option error :=
  match rows with
  | [] => (EmptyString,
           Some (NotFound ("no bundle found for " ++ pkgName ++ " "
                           ++ channelName)))
  | ScanErr e :: _ => (EmptyString, Some e)
  | ScanOk v :: _ => (NullString.String (NullString.Scan v), None)
  end.

Definition GetBundleForChannel (s : SQLQuerier) (pkgName channelName : string)
  : string * option error :=
  GetBundleForChannel_scan
    (cursor (GetBundleForChannel_query (db s) pkgName channelName))
    pkgName channelName.

(** ** GetBundleForName *)

(** [SELECT DISTINCT operatorbundle.bundle FROM operatorbundle
     WHERE operatorbundle.name=? LIMIT 1] *)
Definition GetBundleForName_query (d : DB) (name : string)
  : list (option string) :=
  Sql.limit 1
    (Sql.distinct Sql.text_dec
       (map operatorbundle_bundle
          (filter (fun b => Sql.is_text (operatorbundle_name b) name)
             (operatorbundle d)))).

Definition GetBundleForName_scan (rows : Rows (option string))
           (name : string) : string * option error :=
  match rows with
  | [] => (EmptyString, Some (NotFound ("no bundle found named " ++ name)))
  | ScanErr e :: _ => (EmptyString, Some e)
  | ScanOk v :: _ => (NullString.String (NullString.Scan v), None)
  end.

Definition GetBundleForName (s : SQLQuerier) (name : string)
  : string * option error :=
  GetBundleForName_scan (cursor (GetBundleForName_query (db s) name)) name.

(** ** GetChannelEntriesThatReplace *)

Definition replace_row : Type :=
  (option string * option string * option string)%type.

(** [SELECT DISTINCT channel_entry.package_name, channel_entry.channel_name,
     channel_entry.operatorbundle_name
     FROM channel_entry
     LEFT OUTER JOIN channel_entry replaces
       ON channel_entry.replaces = replaces.entry_id
     WHERE replaces.operatorbundle_name = ?] *)
Definition GetChannelEntriesThatReplace_query (d : DB) (name : string)
  : list replace_row :=
  Sql.distinct row3_dec
    (map (fun er : channel_entry_row * option channel_entry_row =>
            (entry_package_name (fst er), entry_channel_name (fst er),
             entry_operatorbundle_name (fst er)))
       (filter (fun er : channel_entry_row * option channel_entry_row =>
                  Sql.is_text (outer entry_operatorbundle_name (snd er)) name)
          (Sql.left_outer_join
             (fun e replaces =>
                Sql.eq_int (entry_replaces e) (entry_id replaces))
             (channel_entry d) (channel_entry d)))).

Definition scan_replace (name : string) (r : replace_row) : ChannelEntry.t :=
  let '(pkgNameSQL, channelNameSQL, bundleNameSQL) := r in
  {| ChannelEntry.PackageName :=
       NullString.String (NullString.Scan pkgNameSQL);
     ChannelEntry.ChannelName :=
       NullString.String (NullString.Scan channelNameSQL);
     ChannelEntry.BundleName :=
       NullString.String (NullString.Scan bundleNameSQL);
     ChannelEntry.Replaces := name |}.

(** The loop and the final length test; [entries] and the error are the
    function's named results, so a failing [Scan] hands back the entries
    appended so far together with the error. *)
Fixpoint GetChannelEntriesThatReplace_scan (rows : Rows replace_row)
         (name : string) (entries : list ChannelEntry.t)
  : list ChannelEntry.t * option error :=
  match rows with
  | [] =>
      if Nat.eqb (List.length entries) 0
      then (entries,
            Some (NotFound ("no channel entries found that replace " ++ name)))
      else (entries, None)
  | ScanErr e :: _ => (entries, Some e)
  | ScanOk r :: rows' =>
      GetChannelEntriesThatReplace_scan rows' name
        (entries ++ [scan_replace name r])
  end.

Definition GetChannelEntriesThatReplace (s : SQLQuerier) (name : string)
  : list ChannelEntry.t * option error :=
  GetChannelEntriesThatReplace_scan
    (cursor (GetChannelEntriesThatReplace_query (db s) name)) name [].

(** ** GetBundleThatReplaces *)

Definition replaces_join_row : Type :=
  (channel_entry_row * option channel_entry_row * operatorbundle_row)%type.

(** [FROM channel_entry
     LEFT OUTER JOIN channel_entry replaces
       ON replaces.replaces = channel_entry.entry_id
     INNER JOIN operatorbundle
       ON replaces.operatorbundle_name = operatorbundle.name
     WHERE channel_entry.operatorbundle_name = ?
       AND channel_entry.package_name = ?
       AND channel_entry.channel_name = ?] *)
Definition replaces_join (d : DB) (name pkgName channelName : string)
  : list replaces_join_row :=
  filter (fun erb : replaces_join_row =>
            let e := fst (fst erb) in
            Sql.is_text (entry_operatorbundle_name e) name
            && Sql.is_text (entry_package_name e) pkgName
            && Sql.is_text (entry_channel_name e) channelName)
    (Sql.inner_join
       (fun (er : channel_entry_row * option channel_entry_row) b =>
          Sql.eq_text (outer entry_operatorbundle_name (snd er))
                      (operatorbundle_name b))
       (Sql.left_outer_join
          (fun e replaces =>
             Sql.eq_int (entry_replaces replaces) (entry_id e))
          (channel_entry d) (channel_entry d))
       (operatorbundle d)).

(** [SELECT DISTINCT operatorbundle.bundle ... LIMIT 1] *)
Definition GetBundleThatReplaces_query (d : DB)
           (name pkgName channelName : string) : list (option string) :=
  Sql.limit 1
    (Sql.distinct Sql.text_dec
       (map (fun erb : replaces_join_row => operatorbundle_bundle (snd erb))
          (replaces_join d name pkgName channelName))).

Definition GetBundleThatReplaces_scan (rows : Rows (option string))
           (name : string) : string * option error :=
  match rows with
  | [] => (EmptyString,
           Some (NotFound ("no bundle found that replaces " ++ name)))
  | ScanErr e :: _ => (EmptyString, Some e)
  | ScanOk v :: _ => (NullString.String (NullString.Scan v), None)
  end.

Definition GetBundleThatReplaces (s : SQLQuerier)
           (name pkgName channelName : string) : string * option error :=
  GetBundleThatReplaces_scan
    (cursor (GetBundleThatReplaces_query (db s) name pkgName channelName))
    name.

(** ** GetChannelEntriesThatProvide *)

Definition provide_row : Type :=
  (option string * option string * option string * option string)%type.

Definition provider_join : Type :=
  (channel_entry_row * api_provider_row * option channel_entry_row)%type.

(** The [FROM ... WHERE] part shared by the two provider listings:
    [FROM channel_entry
     INNER JOIN api_provider
       ON channel_entry.entry_id = api_provider.channel_entry_id
     LEFT OUTER JOIN channel_entry replaces
       ON channel_entry.replaces = replaces.entry_id
     WHERE api_provider.groupOrName = ? AND api_provider.version = ?
       AND api_provider.kind = ?] *)
Definition providers (d : DB) (groupOrName version kind : string)
  : list provider_join :=
  filter (fun j : provider_join =>
            let a := snd (fst j) in
            Sql.is_text (provider_groupOrName a) groupOrName
            && Sql.is_text (provider_version a) version
            && Sql.is_text (provider_kind a) kind)
    (Sql.left_outer_join
       (fun (ea : channel_entry_row * api_provider_row) replaces =>
          Sql.eq_int (entry_replaces (fst ea)) (entry_id replaces))
       (Sql.inner_join
          (fun e a => Sql.eq_int (entry_id e) (provider_channel_entry_id a))
          (channel_entry d) (api_provider d))
       (channel_entry d)).

Definition provide_columns (j : provider_join) : provide_row :=
  let e := fst (fst j) in
  (entry_package_name e, entry_channel_name e, entry_operatorbundle_name e,
   outer entry_operatorbundle_name (snd j)).

(** [SELECT DISTINCT channel_entry.package_name, channel_entry.channel_name,
     channel_entry.operatorbundle_name, replaces.operatorbundle_name ...] *)
Definition GetChannelEntriesThatProvide_query (d : DB)
           (groupOrName version kind : string) : list provide_row :=
  Sql.distinct row4_dec
    (map provide_columns (providers d groupOrName version kind)).

Definition scan_provide (r : provide_row) : ChannelEntry.t :=
  let '(pkgNameSQL, channelNameSQL, bundleNameSQL, replacesSQL) := r in
  {| ChannelEntry.PackageName :=
       NullString.String (NullString.Scan pkgNameSQL);
     ChannelEntry.ChannelName :=
       NullString.String (NullString.Scan channelNameSQL);
     ChannelEntry.BundleName :=
       NullString.String (NullString.Scan bundleNameSQL);
     ChannelEntry.Replaces :=
       NullString.String (NullString.Scan replacesSQL) |}.

Definition provide_not_found (groupOrName version kind : string) : error :=
  NotFound ("no channel entries found that provide " ++ groupOrName ++ " "
            ++ version ++ " " ++ kind).

(** Named results again: a failing [Scan] leaves the entries appended so
    far next to the error. *)
Fixpoint GetChannelEntriesThatProvide_scan (rows : Rows provide_row)
         (groupOrName version kind : string) (entries : list ChannelEntry.t)
  : list ChannelEntry.t * option error :=
  match rows with
  | [] =>
      if Nat.eqb (List.length entries) 0
      then (entries, Some (provide_not_found groupOrName version kind))
      else (entries, None)
  | ScanErr e :: _ => (entries, Some e)
  | ScanOk r :: rows' =>
      GetChannelEntriesThatProvide_scan rows' groupOrName version kind
        (entries ++ [scan_provide r])
  end.

Definition GetChannelEntriesThatProvide (s : SQLQuerier)
           (groupOrName version kind : string)
  : list ChannelEntry.t * option error :=
  GetChannelEntriesThatProvide_scan
    (cursor (GetChannelEntriesThatProvide_query (db s)
               groupOrName version kind))
    groupOrName version kind [].

(** ** GetLatestChannelEntriesThatProvide *)

Definition latest_row : Type := (provide_row * option Z)%type.

Definition entry_key (j : provider_join) : option string * option string :=
  (entry_package_name (fst (fst j)), entry_channel_name (fst (fst j))).

Definition provider_depth (j : provider_join) : option Z :=
  entry_depth (fst (fst j)).

(** [SELECT DISTINCT ..., MIN(channel_entry.depth) ...
     GROUP BY channel_entry.package_name, channel_entry.channel_name] *)
Definition GetLatestChannelEntriesThatProvide_query (d : DB)
           (groupOrName version kind : string) : list latest_row :=
  Sql.distinct row5_dec
    (map (fun jm : provider_join * option Z =>
            (provide_columns (fst jm), snd jm))
       (Sql.group_min key_dec entry_key provider_depth
          (providers d groupOrName version kind))).

(** Here a failing [Scan] returns [nil] with the error. *)
Fixpoint GetLatestChannelEntriesThatProvide_scan (rows : Rows latest_row)
         (groupOrName version kind : string) (entries : list ChannelEntry.t)
  : list ChannelEntry.t * option error :=
  match rows with
  | [] =>
      if Nat.eqb (List.length entries) 0
      then ([], Some (provide_not_found groupOrName version kind))
      else (entries, None)
  | ScanErr e :: _ => ([], Some e)
  | ScanOk (r, min_depth) :: rows' =>
      GetLatestChannelEntriesThatProvide_scan rows' groupOrName version kind
        (entries ++ [scan_provide r])
  end.

Definition GetLatestChannelEntriesThatProvide (s : SQLQuerier)
           (groupOrName version kind : string)
  : list ChannelEntry.t * option error :=
  GetLatestChannelEntriesThatProvide_scan
    (cursor (GetLatestChannelEntriesThatProvide_query (db s)
               groupOrName version kind))
    groupOrName version kind [].

(** ** GetBundleThatProvides *)

Definition default_join : Type :=
  (channel_entry_row * api_provider_row * operatorbundle_row
   * package_row)%type.

Definition dj_entry (j : default_join) : channel_entry_row :=
  fst (fst (fst j)).
Definition dj_provider (j : default_join) : api_provider_row :=
  snd (fst (fst j)).
Definition dj_bundle (j : default_join) : operatorbundle_row := snd (fst j).
Definition dj_package (j : default_join) : package_row := snd j.

(** [FROM channel_entry
     INNER JOIN api_provider
       ON channel_entry.entry_id = api_provider.channel_entry_id
     INNER JOIN operatorbundle
       ON operatorbundle.name = channel_entry.operatorbundle_name
     INNER JOIN package ON package.name = channel_entry.package_name
     WHERE api_provider.groupOrName = ? AND api_provider.version = ?
       AND api_provider.kind = ?
       AND package.default_channel = channel_entry.channel_name] *)
Definition default_providers (d : DB) (groupOrName version kind : string)
  : list default_join :=
  filter (fun j : default_join =>
            Sql.is_text (provider_groupOrName (dj_provider j)) groupOrName
            && Sql.is_text (provider_version (dj_provider j)) version
            && Sql.is_text (provider_kind (dj_provider j)) kind
            && Sql.eq_text (package_default_channel (dj_package j))
                           (entry_channel_name (dj_entry j)))
    (Sql.inner_join
       (fun (eab : channel_entry_row * api_provider_row * operatorbundle_row)
            p =>
          Sql.eq_text (package_name p) (entry_package_name (fst (fst eab))))
       (Sql.inner_join
          (fun (ea : channel_entry_row * api_provider_row) b =>
             Sql.eq_text (operatorbundle_name b)
                         (entry_operatorbundle_name (fst ea)))
          (Sql.inner_join
             (fun e a =>
                Sql.eq_int (entry_id e) (provider_channel_entry_id a))
             (channel_entry d) (api_provider d))
          (operatorbundle d))
       (package d)).

Definition dj_key (j : default_join) : option string * option string :=
  (entry_package_name (dj_entry j), entry_channel_name (dj_entry j)).

Definition dj_depth (j : default_join) : option Z := entry_depth (dj_entry j).

(** The representatives of the groups, before projection. *)
Definition default_latest (d : DB) (groupOrName version kind : string)
  : list (default_join * option Z) :=
  Sql.group_min key_dec dj_key dj_depth
    (default_providers d groupOrName version kind).

(** [SELECT DISTINCT operatorbundle.bundle, MIN(channel_entry.depth) ...
     GROUP BY channel_entry.package_name, channel_entry.channel_name] *)
Definition GetBundleThatProvides_query (d : DB)
           (groupOrName version kind : string)
  : list (option string * option Z) :=
  Sql.distinct row2_dec
    (map (fun jm : default_join * option Z =>
            (operatorbundle_bundle (dj_bundle (fst jm)), snd jm))
       (default_latest d groupOrName version kind)).

Definition bundle_not_found (groupOrName version kind : string) : error :=
  NotFound ("no bundle found that provides " ++ groupOrName ++ " "
            ++ version ++ " " ++ kind).

Definition GetBundleThatProvides_scan (rows : Rows (option string * option Z))
           (groupOrName version kind : string) : string * option error :=
  match rows with
  | [] => (EmptyString, Some (bundle_not_found groupOrName version kind))
  | ScanErr e :: _ => (EmptyString, Some e)
  | ScanOk (v, m) :: _ =>
      let bundle := NullString.Scan v in
      let min_depth := NullInt64.Scan m in
      if negb (NullString.Valid bundle)
      then (EmptyString, Some (bundle_not_found groupOrName version kind))
      else (NullString.String bundle, None)
  end.

Definition GetBundleThatProvides (s : SQLQuerier)
           (groupOrName version kind : string) : string * option error :=
  GetBundleThatProvides_scan
    (cursor (GetBundleThatProvides_query (db s) groupOrName version kind))
    groupOrName version kind.

(** ** The cursor and the faults of the driver

    [for rows.Next()] ends when [Next] returns false, which it does at the
    end of the rows and also when the driver fails while stepping (a
    cancelled context, an I/O error); the error is kept for [rows.Err()],
    which query.go never calls. *)

(** What a loop over a cursor gets to see, and what it does not read. *)
Record Cursor (A : Type) : Type := {
  delivered : Rows A;
  Err : option error
}.

(** What can go wrong while the cursor walks over the rows a query
    selects: [Scan] fails on row [n] (counted from 0), or [Next] fails
    after [n] rows. *)
Inductive fault : Type :=
| NoFault
| ScanFault (n : nat) (e : error)
| NextFault (n : nat) (e : error).

Definition open_cursor {A} (f : fault) (rs : list A) : Cursor A :=
  match f with
  | NoFault => {| delivered := cursor rs; Err := None |}
  | ScanFault n e =>
      {| delivered :=
           cursor (firstn n rs)
           ++ match skipn n rs with
              | [] => []
              | _ :: rest => ScanErr e :: cursor rest
              end;
         Err := None |}
  | NextFault n e => {| delivered := cursor (firstn n rs); Err := Some e |}
  end.

(** The three listing operations when the driver has fault [f]: the same
    query and the same loop, over the rows the cursor delivers. *)
Definition GetChannelEntriesThatReplace_under (f : fault) (s : SQLQuerier)
           (name : string) : list ChannelEntry.t * option error :=
  GetChannelEntriesThatReplace_scan
    (delivered
       (open_cursor f (GetChannelEntriesThatReplace_query (db s) name)))
    name [].

Definition GetChannelEntriesThatProvide_under (f : fault) (s : SQLQuerier)
           (groupOrName version kind : string)
  : list ChannelEntry.t * option error :=
  GetChannelEntriesThatProvide_scan
    (delivered
       (open_cursor f (GetChannelEntriesThatProvide_query (db s)
                         groupOrName version kind)))
    groupOrName version kind [].

Definition GetLatestChannelEntriesThatProvide_under (f : fault)
           (s : SQLQuerier) (groupOrName version kind : string)
  : list ChannelEntry.t * option error :=
  GetLatestChannelEntriesThatProvide_scan
    (delivered
       (open_cursor f (GetLatestChannelEntriesThatProvide_query (db s)
                         groupOrName version kind)))
    groupOrName version kind [].

(** ** Catalogs used in the examples *)

Definition empty_db : DB :=
  {| package := []; channel := []; operatorbundle := [];
     channel_entry := []; api_provider := [] |}.

Definition entry (id : Z) (ch pkg bundle : string) (replaces : option Z)
           (depth : Z) : channel_entry_row :=
  {| entry_id := Some id; entry_channel_name := Some ch;
     entry_package_name := Some pkg; entry_operatorbundle_name := Some bundle;
     entry_replaces := replaces; entry_depth := Some depth |}.

Definition provides (g v k : string) (id : Z) : api_provider_row :=
  {| provider_groupOrName := Some g; provider_version := Some v;
     provider_kind := Some k; provider_channel_entry_id := Some id |}.

Definition etcd_package : package_row :=
  {| package_name := Some "etcd"%string;
     package_default_channel := Some "alpha"%string |}.

Definition etcd_alpha : channel_row :=
  {| channel_name := Some "alpha"%string;
     channel_package_name := Some "etcd"%string;
     channel_head_operatorbundle_name := Some "etcd.v1.0.0"%string |}.

Definition etcd_api (id : Z) : api_provider_row :=
  provides "etcd.database.coreos.com" "v1" "EtcdCluster" id.

(** Package [etcd], default channel [alpha], head [etcd.v1.0.0] at depth 0
    providing the EtcdCluster API. *)
Definition etcd_db (payload1 : option string) : DB :=
  {| package := [etcd_package];
     channel := [etcd_alpha];
     operatorbundle :=
       [{| operatorbundle_name := Some "etcd.v1.0.0"%string;
           operatorbundle_bundle := payload1 |}];
     channel_entry := [entry 1 "alpha" "etcd" "etcd.v1.0.0" None 0];
     api_provider := [etcd_api 1] |}.

(** The same catalog after [etcd.v0.9.0] is added at depth 1, replaced by
    [etcd.v1.0.0] and providing the same API.  [first] tells whether the new
    rows are stored before or after the old ones. *)
Definition etcd_db2 (first : bool) (payload1 payload0 : option string) : DB :=
  let old_bundle := {| operatorbundle_name := Some "etcd.v1.0.0"%string;
                       operatorbundle_bundle := payload1 |} in
  let new_bundle := {| operatorbundle_name := Some "etcd.v0.9.0"%string;
                       operatorbundle_bundle := payload0 |} in
  let old_entry := entry 1 "alpha" "etcd" "etcd.v1.0.0" (Some 2%Z) 0 in
  let new_entry := entry 2 "alpha" "etcd" "etcd.v0.9.0" None 1 in
  {| package := [etcd_package];
     channel := [etcd_alpha];
     operatorbundle :=
       if first then [new_bundle; old_bundle] else [old_bundle; new_bundle];
     channel_entry :=
       if first then [new_entry; old_entry] else [old_entry; new_entry];
     api_provider :=
       if first then [etcd_api 2; etcd_api 1] else [etcd_api 1; etcd_api 2] |}.

(** The replaces chain head -> A -> B -> C (depths 0, 1, 2, 3) of channel
    (P, Ch); B and C provide the API (g, v, k). *)
Definition chain_db : DB :=
  {| package := [{| package_name := Some "P"%string;
                    package_default_channel := Some "Ch"%string |}];
     channel := [{| channel_name := Some "Ch"%string;
                    channel_package_name := Some "P"%string;
                    channel_head_operatorbundle_name := Some "head"%string |}];
     operatorbundle :=
       [{| operatorbundle_name := Some "head"%string;
           operatorbundle_bundle := Some "payload-head"%string |};
        {| operatorbundle_name := Some "A"%string;
           operatorbundle_bundle := Some "payload-A"%string |};
        {| operatorbundle_name := Some "B"%string;
           operatorbundle_bundle := Some "payload-B"%string |};
        {| operatorbundle_name := Some "C"%string;
           operatorbundle_bundle := Some "payload-C"%string |}];
     channel_entry :=
       [entry 4 "Ch" "P" "C" None 3;
        entry 3 "Ch" "P" "B" (Some 4%Z) 2;
        entry 2 "Ch" "P" "A" (Some 3%Z) 1;
        entry 1 "Ch" "P" "head" (Some 2%Z) 0];
     api_provider := [provides "g" "v" "k" 4; provides "g" "v" "k" 3] |}.

(** A package without any channel. *)
Definition lonely_package_db : DB :=
  {| package := [etcd_package]; channel := []; operatorbundle := [];
     channel_entry := []; api_provider := [] |}.

(** Three channels: the third one is not in the manifest. *)
Definition three_channel_db : DB :=
  {| package := [etcd_package];
     channel :=
       [etcd_alpha;
        {| channel_name := Some "beta"%string;
           channel_package_name := Some "etcd"%string;
           channel_head_operatorbundle_name := Some "etcd.v0.9.0"%string |};
        {| channel_name := Some "stable"%string;
           channel_package_name := Some "etcd"%string;
           channel_head_operatorbundle_name := Some "etcd.v0.6.1"%string |}];
     operatorbundle := []; channel_entry := []; api_provider := [] |}.

(** A cursor whose second row cannot be scanned. *)
Definition broken_cursor {A} (first third : A) : Rows A :=
  [ScanOk first; ScanErr (DriverError "sql: Rows are closed"); ScanOk third].

(** ** The replaces graph, read off the tables *)

(** The replaces-edge of entry [e] points at entry [r], and [r] carries the
    bundle [name]. *)
Definition replaces_edge (d : DB) (name : string)
           (e r : channel_entry_row) : Prop :=
  In e (channel_entry d) /\ In r (channel_entry d)
  /\ Sql.eq_int (entry_replaces e) (entry_id r) = true
  /\ entry_operatorbundle_name r = Some name.

(** Entry [e] carries the bundle [name] in channel ([pkgName],
    [channelName]), the replaces-edge of entry [r] points at [e], and [b] is
    a bundle row for the bundle of [r]. *)
Definition replaced_by (d : DB) (name pkgName channelName : string)
           (e r : channel_entry_row) (b : operatorbundle_row) : Prop :=
  In e (channel_entry d) /\ In r (channel_entry d)
  /\ In b (operatorbundle d)
  /\ entry_operatorbundle_name e = Some name
  /\ entry_package_name e = Some pkgName
  /\ entry_channel_name e = Some channelName
  /\ Sql.eq_int (entry_replaces r) (entry_id e) = true
  /\ Sql.eq_text (entry_operatorbundle_name r) (operatorbundle_name b)
     = true.

(** ** API providers, read off the tables *)

(** A provider row of the API ([g], [v], [k]) refers to entry [e]. *)
Definition provides_api (d : DB) (g v k : string)
           (e : channel_entry_row) : Prop :=
  In e (channel_entry d)
  /\ exists a, In a (api_provider d)
               /\ Sql.eq_int (entry_id e) (provider_channel_entry_id a) = true
               /\ provider_groupOrName a = Some g
               /\ provider_version a = Some v
               /\ provider_kind a = Some k.

Definition channel_of (e : channel_entry_row)
  : option string * option string :=
  (entry_package_name e, entry_channel_name e).

(** [e] is at least as close to the head as every entry of [P] in its own
    (package, channel) that has a depth. *)
Definition shallowest (P : channel_entry_row -> Prop)
           (e : channel_entry_row) : Prop :=
  forall e' d, P e' -> channel_of e' = channel_of e ->
               entry_depth e' = Some d ->
               exists b, entry_depth e = Some b /\ (b <= d)%Z.

(** Entry [e] provides the API in the default channel of its package: [p]
    is the package row of [e] and names the channel of [e] as default. *)
Definition default_provider (d : DB) (g v k : string)
           (e : channel_entry_row) (p : package_row) : Prop :=
  provides_api d g v k e
  /\ In p (package d)
  /\ Sql.eq_text (package_name p) (entry_package_name e) = true
  /\ Sql.eq_text (package_default_channel p) (entry_channel_name e) = true.

(** [b] is a bundle row for the bundle of entry [e]. *)
Definition bundle_of (d : DB) (e : channel_entry_row)
           (b : operatorbundle_row) : Prop :=
  In b (operatorbundle d)
  /\ Sql.eq_text (operatorbundle_name b) (entry_operatorbundle_name e) = true.

(** The entries the query of GetBundleThatProvides groups: default-channel
    providers that have a bundle row. *)
Definition default_candidate (d : DB) (g v k : string)
           (e : channel_entry_row) : Prop :=
  exists p b, default_provider d g v k e p /\ bundle_of d e b.

Definition etcd_querier (payload1 : option string) : SQLQuerier :=
  {| db := etcd_db payload1 |}.

Definition etcd_querier2 (first : bool) (payload1 payload0 : option string)
  : SQLQuerier :=
  {| db := etcd_db2 first payload1 payload0 |}.

(** ** Bundles and channel heads, read off the tables *)

(** The names of a column that are not NULL, in order. *)
Definition present (l : list (option string)) : list string :=
  flat_map (fun v : option string =>
              match v with Some n => [n] | None => [] end) l.

(** [b] is a bundle row named [name]. *)
Definition bundle_named (d : DB) (name : string)
           (b : operatorbundle_row) : Prop :=
  In b (operatorbundle d) /\ operatorbundle_name b = Some name.

(** No two bundle rows carry the same name. *)
Definition unique_bundle_names (d : DB) : Prop :=
  forall b b' n, bundle_named d n b -> bundle_named d n b' -> b = b'.

(** [c] is a row of channel ([pkgName], [channelName]). *)
Definition channel_row_of (d : DB) (pkgName channelName : string)
           (c : channel_row) : Prop :=
  In c (channel d)
  /\ channel_package_name c = Some pkgName
  /\ channel_name c = Some channelName.

(** [b] is a bundle row for the head of channel row [c]. *)
Definition head_bundle (d : DB) (c : channel_row)
           (b : operatorbundle_row) : Prop :=
  In b (operatorbundle d)
  /\ Sql.eq_text (channel_head_operatorbundle_name c) (operatorbundle_name b)
     = true.

(** What the outer join puts beside entry [e]: an entry [e] replaces, or
    NULL when [e] replaces none. *)
Definition replaces_partner (d : DB) (e : channel_entry_row)
           (o : option channel_entry_row) : Prop :=
  match o with
  | Some r => In r (channel_entry d)
              /\ Sql.eq_int (entry_replaces e) (entry_id r) = true
  | None => forall r, In r (channel_entry d) ->
                      Sql.eq_int (entry_replaces e) (entry_id r) = false
  end.

(** The channel of a manifest made from channel row [c]. *)
Definition manifest_channel (c : channel_row) : PackageChannel :=
  {| Name := NullString.String (NullString.Scan (channel_name c));
     CurrentCSVName :=
       NullString.String
         (NullString.Scan (channel_head_operatorbundle_name c)) |}.

Definition etcd_beta : channel_row :=
  {| channel_name := Some "beta"%string;
     channel_package_name := Some "etcd"%string;
     channel_head_operatorbundle_name := Some "etcd.v0.9.0"%string |}.

(** Package [etcd] with its two channels and their head bundles. *)
Definition two_channel_db : DB :=
  {| package := [etcd_package];
     channel := [etcd_alpha; etcd_beta];
     operatorbundle :=
       [{| operatorbundle_name := Some "etcd.v1.0.0"%string;
           operatorbundle_bundle := Some "v1.0.0 manifest"%string |};
        {| operatorbundle_name := Some "etcd.v0.9.0"%string;
           operatorbundle_bundle := Some "v0.9.0 manifest"%string |}];
     channel_entry := []; api_provider := [] |}.

(** The joined rows GetBundleForChannel selects its payload from. *)
Definition channel_bundle_join (d : DB) (pkgName channelName : string)
  : list (channel_row * operatorbundle_row) :=
  filter (fun cb : channel_row * operatorbundle_row =>
            Sql.is_text (channel_package_name (fst cb)) pkgName
            && Sql.is_text (channel_name (fst cb)) channelName)
    (Sql.inner_join
       (fun c b =>
          Sql.eq_text (channel_head_operatorbundle_name c)
                      (operatorbundle_name b))
       (channel d) (operatorbundle d)).

(** No entry has a NULL package, channel or bundle name. *)
Definition entries_named (d : DB) : Prop :=
  forall e, In e (channel_entry d) ->
            entry_package_name e <> None
            /\ entry_channel_name e <> None
            /\ entry_operatorbundle_name e <> None.

(** Two entries replace B in channel Ch; they differ only in their package
    name, NULL for one and the empty string for the other. *)
Definition null_package_entry_db : DB :=
  {| package := []; channel := []; operatorbundle := [];
     channel_entry :=
       [entry 1 "Ch" "P" "B" None 1;
        {| entry_id := Some 2%Z; entry_channel_name := Some "Ch"%string;
           entry_package_name := None;
           entry_operatorbundle_name := Some "A"%string;
           entry_replaces := Some 1%Z; entry_depth := Some 0%Z |};
        {| entry_id := Some 3%Z; entry_channel_name := Some "Ch"%string;
           entry_package_name := Some EmptyString;
           entry_operatorbundle_name := Some "A"%string;
           entry_replaces := Some 1%Z; entry_depth := Some 0%Z |}];
     api_provider := [] |}.

(** ** Claims as stated, for the ones the code does not satisfy *)

(** C8 as stated: whatever the driver does, a row whose [Scan] fails makes
    the operation fail, and an operation that returns without error returns
    the entries of all the rows its query selects. *)
Definition no_partial_success (s : SQLQuerier) (name g v k : string) : Prop :=
  forall f,
    ((forall n e, f = ScanFault n e ->
                  n < List.length
                        (GetChannelEntriesThatReplace_query (db s) name) ->
                  snd (GetChannelEntriesThatReplace_under f s name) <> None)
     /\ (snd (GetChannelEntriesThatReplace_under f s name) = None ->
         fst (GetChannelEntriesThatReplace_under f s name)
         = map (scan_replace name)
               (GetChannelEntriesThatReplace_query (db s) name)))
    /\ ((forall n e, f = ScanFault n e ->
                     n < List.length
                           (GetChannelEntriesThatProvide_query (db s) g v k) ->
                     snd (GetChannelEntriesThatProvide_under f s g v k)
                     <> None)
        /\ (snd (GetChannelEntriesThatProvide_under f s g v k) = None ->
            fst (GetChannelEntriesThatProvide_under f s g v k)
            = map scan_provide
                  (GetChannelEntriesThatProvide_query (db s) g v k)))
    /\ ((forall n e, f = ScanFault n e ->
                     n < List.length
                           (GetLatestChannelEntriesThatProvide_query
                              (db s) g v k) ->
                     snd (GetLatestChannelEntriesThatProvide_under f s g v k)
                     <> None)
        /\ (snd (GetLatestChannelEntriesThatProvide_under f s g v k) = None ->
            fst (GetLatestChannelEntriesThatProvide_under f s g v k)
            = map (fun r : latest_row => scan_provide (fst r))
                  (GetLatestChannelEntriesThatProvide_query (db s) g v k))).

(** GetPackage: NotFound exactly when no package row has the name, and a
    manifest with one or two channels in every other case. *)
Definition GetPackage_dichotomy (s : SQLQuerier) (name : string) : Prop :=
  ((forall p, In p (package (db s)) -> package_name p <> Some name) ->
   exists msg, GetPackage s name = (None, Some (NotFound msg)))
  /\ ((exists p, In p (package (db s)) /\ package_name p = Some name) ->
      exists m, GetPackage s name = (Some m, None)
                /\ 1 <= List.length (Channels m) <= 2).

(** The string a nullable text column is read as: the empty string for
    NULL. *)
Definition decode (v : option string) : string :=
  NullString.String (NullString.Scan v).

(** The seven operations that use their [NullString] targets through
    [.String] only: with a matched row they succeed, every text column
    being read with [decode]. *)
Definition null_decodes_in_rows (s : SQLQuerier) : Prop :=
  (forall name r rest,
      GetPackage_query (db s) name = r :: rest ->
      GetPackage s name
      = (Some {| PackageName := decode (fst (fst (fst r)));
                 DefaultChannelName := decode (snd (fst (fst r)));
                 Channels := map (fun c : package_channel_row =>
                                    {| Name := decode (snd (fst c));
                                       CurrentCSVName := decode (snd c) |})
                                 (firstn 2 (r :: rest)) |}, None))
  /\ (forall pkgName channelName v rest,
        GetBundleForChannel_query (db s) pkgName channelName = v :: rest ->
        GetBundleForChannel s pkgName channelName = (decode v, None))
  /\ (forall name v rest,
        GetBundleForName_query (db s) name = v :: rest ->
        GetBundleForName s name = (decode v, None))
  /\ (forall name r rest,
        GetChannelEntriesThatReplace_query (db s) name = r :: rest ->
        GetChannelEntriesThatReplace s name
        = (map (fun c : replace_row =>
                  {| ChannelEntry.PackageName := decode (fst (fst c));
                     ChannelEntry.ChannelName := decode (snd (fst c));
                     ChannelEntry.BundleName := decode (snd c);
                     ChannelEntry.Replaces := name |}) (r :: rest), None))
  /\ (forall name pkgName channelName v rest,
        GetBundleThatReplaces_query (db s) name pkgName channelName
        = v :: rest ->
        GetBundleThatReplaces s name pkgName channelName = (decode v, None))
  /\ (forall g v k r rest,
        GetChannelEntriesThatProvide_query (db s) g v k = r :: rest ->
        GetChannelEntriesThatProvide s g v k
        = (map (fun c : provide_row =>
                  {| ChannelEntry.PackageName := decode (fst (fst (fst c)));
                     ChannelEntry.ChannelName := decode (snd (fst (fst c)));
                     ChannelEntry.BundleName := decode (snd (fst c));
                     ChannelEntry.Replaces := decode (snd c) |}) (r :: rest),
           None))
  /\ (forall g v k r rest,
        GetLatestChannelEntriesThatProvide_query (db s) g v k = r :: rest ->
        GetLatestChannelEntriesThatProvide s g v k
        = (map (fun c : latest_row =>
                  {| ChannelEntry.PackageName :=
                       decode (fst (fst (fst (fst c))));
                     ChannelEntry.ChannelName :=
                       decode (snd (fst (fst (fst c))));
                     ChannelEntry.BundleName := decode (snd (fst (fst c)));
                     ChannelEntry.Replaces := decode (snd (fst c)) |})
               (r :: rest), None)).

(** C5 as stated: the same for all nine operations, a NULL package name
    being listed as the empty string and a NULL payload returned as the
    empty string. *)
Definition null_decodes_to_empty (s : SQLQuerier) : Prop :=
  ListPackages s = (map decode (ListPackages_query (db s)), None)
  /\ null_decodes_in_rows s
  /\ (forall g v k b m rest,
        GetBundleThatProvides_query (db s) g v k = (b, m) :: rest ->
        GetBundleThatProvides s g v k = (decode b, None)).

(** A package table holding a row without name beside [etcd]. *)
Definition nameless_package_db : DB :=
  {| package := [{| package_name := None;
                    package_default_channel := Some "alpha"%string |};
                 etcd_package];
     channel := []; operatorbundle := []; channel_entry := [];
     api_provider := [] |}.

(** ** Invariant of the MIN accumulator

    After the rows [pre] of a group, the accumulator holds a row of [pre]
    whose value is the aggregate so far and is not above any value seen. *)
Definition min_inv {A} (col : A -> option Z) (pre : list A)
           (st : option A * option Z) : Prop :=
  (pre = [] /\ st = (None, None))
  \/ (exists x, fst st = Some x /\ In x pre /\ snd st = col x
                /\ forall y d, In y pre -> col y = Some d ->
                               exists b, col x = Some b /\ (b <= d)%Z).

(** * Facts about the relational operators *)

Module SqlFacts.

Lemma eq_text_true a b :
  Sql.eq_text a b = true <-> exists s, a = Some s /\ b = Some s.
Proof.
  split.
  - destruct a as [x|], b as [y|]; simpl; intros H; try discriminate.
    apply String.eqb_eq in H; subst; eauto.
  - intros [s [-> ->]]; simpl; apply String.eqb_refl.
Qed.

Lemma eq_int_true a b :
  Sql.eq_int a b = true <-> exists z, a = Some z /\ b = Some z.
Proof.
  split.
  - destruct a as [x|], b as [y|]; simpl; intros H; try discriminate.
    apply Z.eqb_eq in H; subst; eauto.
  - intros [z [-> ->]]; simpl; apply Z.eqb_refl.
Qed.

Lemma is_text_true a p : Sql.is_text a p = true <-> a = Some p.
Proof.
  unfold Sql.is_text; rewrite eq_text_true; split.
  - intros [s [-> E]]; inversion E; reflexivity.
  - intros ->; eauto.
Qed.

Lemma in_inner_join {A B} (on : A -> B -> bool) l r a b :
  In (a, b) (Sql.inner_join on l r) <-> In a l /\ In b r /\ on a b = true.
Proof.
  unfold Sql.inner_join; rewrite in_flat_map; split.
  - intros [a' [Ha Hin]]. apply in_map_iff in Hin.
    destruct Hin as [b' [E Hb]]. inversion E; subst.
    apply filter_In in Hb. tauto.
  - intros [Ha [Hb Hon]]. exists a; split; [assumption|].
    apply in_map, filter_In; auto.
Qed.

Lemma in_left_outer_join_some {A B} (on : A -> B -> bool) l r a b :
  In (a, Some b) (Sql.left_outer_join on l r)
  <-> In a l /\ In b r /\ on a b = true.
Proof.
  unfold Sql.left_outer_join; rewrite in_flat_map; split.
  - intros [a' [Ha Hin]].
    destruct (filter (on a') r) as [|m ms] eqn:F.
    + destruct Hin as [E|[]]; discriminate.
    + apply in_map_iff in Hin. destruct Hin as [b' [E Hb]].
      inversion E; subst. rewrite <- F in Hb.
      apply filter_In in Hb. tauto.
  - intros [Ha [Hb Hon]]. exists a; split; [assumption|].
    assert (Hf : In b (filter (on a) r)) by (apply filter_In; auto).
    destruct (filter (on a) r) as [|m ms]; [destruct Hf|].
    apply in_map_iff. exists b; auto.
Qed.

Lemma in_left_outer_join_none {A B} (on : A -> B -> bool) l r a :
  In (a, None) (Sql.left_outer_join on l r)
  <-> In a l /\ forall b, In b r -> on a b = false.
Proof.
  unfold Sql.left_outer_join; rewrite in_flat_map; split.
  - intros [a' [Ha Hin]].
    destruct (filter (on a') r) as [|m ms] eqn:F.
    + destruct Hin as [E|[]]. inversion E; subst. split; [assumption|].
      intros b Hb. destruct (on a b) eqn:O; [|reflexivity].
      assert (Hf : In b (filter (on a) r)) by (apply filter_In; auto).
      rewrite F in Hf; destruct Hf.
    + apply in_map_iff in Hin. destruct Hin as [b' [E _]]. discriminate.
  - intros [Ha Hno]. exists a; split; [assumption|].
    destruct (filter (on a) r) as [|m ms] eqn:F; [left; reflexivity|].
    assert (Hm : In m (filter (on a) r)) by (rewrite F; left; reflexivity).
    apply filter_In in Hm. destruct Hm as [Hm Hon].
    rewrite (Hno m Hm) in Hon. discriminate.
Qed.

Lemma in_distinct_from {A} (dec : forall x y : A, {x = y} + {x <> y})
      l seen x :
  In x (Sql.distinct_from dec seen l) <-> In x l /\ ~ In x seen.
Proof.
  revert seen; induction l as [|y l IH]; intros seen; simpl.
  - tauto.
  - destruct (in_dec dec y seen) as [Hy|Hy].
    + rewrite IH. split.
      * tauto.
      * intros [[E|Hx] Hn]; [subst; contradiction | tauto].
    + simpl. rewrite IH. simpl. split.
      * intros [E|[Hx Hn]]; [subst; tauto | tauto].
      * intros [[E|Hx] Hn]; [tauto|].
        destruct (dec y x) as [E|NE]; [tauto|]. right. tauto.
Qed.

Lemma in_distinct {A} (dec : forall x y : A, {x = y} + {x <> y}) l x :
  In x (Sql.distinct dec l) <-> In x l.
Proof. unfold Sql.distinct; rewrite in_distinct_from; simpl; tauto. Qed.

Lemma NoDup_distinct_from {A} (dec : forall x y : A, {x = y} + {x <> y})
      l seen :
  NoDup (Sql.distinct_from dec seen l).
Proof.
  revert seen; induction l as [|y l IH]; intros seen; simpl.
  - constructor.
  - destruct (in_dec dec y seen); [apply IH|].
    constructor; [|apply IH].
    rewrite in_distinct_from; simpl; tauto.
Qed.

Lemma NoDup_distinct {A} (dec : forall x y : A, {x = y} + {x <> y}) l :
  NoDup (Sql.distinct dec l).
Proof. apply NoDup_distinct_from. Qed.

(** A list without repetition is left as it is. *)
Lemma distinct_from_NoDup {A} (dec : forall x y : A, {x = y} + {x <> y})
      l seen :
  NoDup l -> (forall x, In x l -> ~ In x seen) ->
  Sql.distinct_from dec seen l = l.
Proof.
  revert seen; induction l as [|y l IH]; intros seen ND Hs; simpl.
  - reflexivity.
  - inversion ND as [|? ? Hy ND']; subst.
    destruct (in_dec dec y seen) as [Hin|_].
    + exfalso; apply (Hs y); simpl; auto.
    + f_equal. apply IH; [assumption|].
      intros x Hx [E|Hin]; [subst; contradiction|].
      apply (Hs x); simpl; auto.
Qed.

Lemma distinct_NoDup {A} (dec : forall x y : A, {x = y} + {x <> y}) l :
  NoDup l -> Sql.distinct dec l = l.
Proof. intros ND; apply distinct_from_NoDup; auto. Qed.

(** The first row survives [DISTINCT] in first position. *)
Lemma distinct_cons {A} (dec : forall x y : A, {x = y} + {x <> y}) x l :
  Sql.distinct dec (x :: l) = x :: Sql.distinct_from dec [x] l.
Proof. reflexivity. Qed.

Lemma distinct_nil_iff {A} (dec : forall x y : A, {x = y} + {x <> y}) l :
  Sql.distinct dec l = [] <-> l = [].
Proof.
  destruct l as [|x l]; [tauto|].
  rewrite distinct_cons; split; discriminate.
Qed.

End SqlFacts.

Module AggFacts.

Lemma min_step_inv {A} (col : A -> option Z) pre st x :
  min_inv col pre st -> min_inv col (pre ++ [x]) (Sql.min_step col st x).
Proof.
  intros [[-> ->]|[x0 [Hacc [Hin [Hbest Hmin]]]]]; right.
  - exists x. unfold Sql.min_step; simpl.
    destruct (col x) as [v|] eqn:C; simpl;
      (split; [reflexivity|]); (split; [left; reflexivity|]);
      (split; [reflexivity|]);
      intros y d [<-|[]] Hy; rewrite C in Hy; inversion Hy; subst;
      exists d; split; [reflexivity | lia].
  - unfold Sql.min_step. rewrite Hbest.
    destruct (col x) as [v|] eqn:C, (col x0) as [b|] eqn:C0.
    + destruct (Z.ltb_spec v b) as [Hlt|Hge].
      * exists x; simpl; rewrite C. repeat split; auto.
        { apply in_or_app; right; left; reflexivity. }
        intros y d Hy Hd. apply in_app_or in Hy.
        destruct Hy as [Hy|[<-|[]]].
        -- destruct (Hmin y d Hy Hd) as [b' [E Hle]].
           inversion E; subst. exists v; split; [reflexivity | lia].
        -- rewrite C in Hd; inversion Hd; subst.
           exists d; split; [reflexivity | lia].
      * exists x0; rewrite Hacc, Hbest, C0. repeat split; auto.
        { apply in_or_app; left; assumption. }
        intros y d Hy Hd. apply in_app_or in Hy.
        destruct Hy as [Hy|[<-|[]]].
        -- destruct (Hmin y d Hy Hd) as [b' [E Hle]]; eauto.
        -- rewrite C in Hd; inversion Hd; subst.
           exists b; split; [reflexivity | lia].
    + exists x; simpl; rewrite C. repeat split; auto.
      { apply in_or_app; right; left; reflexivity. }
      intros y d Hy Hd. apply in_app_or in Hy.
      destruct Hy as [Hy|[<-|[]]].
      * destruct (Hmin y d Hy Hd) as [b' [E _]]; discriminate.
      * rewrite C in Hd; inversion Hd; subst.
        exists d; split; [reflexivity | lia].
    + exists x0; rewrite Hacc, Hbest, C0. repeat split; auto.
      { apply in_or_app; left; assumption. }
      intros y d Hy Hd. apply in_app_or in Hy.
      destruct Hy as [Hy|[<-|[]]].
      * apply (Hmin y d Hy Hd).
      * rewrite C in Hd; discriminate.
    + exists x; simpl; rewrite C. repeat split; auto.
      { apply in_or_app; right; left; reflexivity. }
      intros y d Hy Hd. apply in_app_or in Hy.
      destruct Hy as [Hy|[<-|[]]].
      * destruct (Hmin y d Hy Hd) as [b' [E _]]; discriminate.
      * rewrite C in Hd; discriminate.
Qed.

Lemma min_fold_inv {A} (col : A -> option Z) g :
  forall pre st,
    min_inv col pre st ->
    min_inv col (pre ++ g) (fold_left (Sql.min_step col) g st).
Proof.
  induction g as [|x g IH]; intros pre st H; simpl.
  - rewrite app_nil_r; assumption.
  - replace (pre ++ x :: g) with ((pre ++ [x]) ++ g)
      by (rewrite <- app_assoc; reflexivity).
    apply IH, min_step_inv, H.
Qed.

(** The row [MIN] selects in a non-empty group: a row of the group, no row
    of the group has a smaller value, and the aggregate is its value. *)
Lemma min_agg_spec {A} (col : A -> option Z) g :
  g <> [] ->
  exists x, Sql.min_agg col g = (Some x, col x) /\ In x g
            /\ forall y d, In y g -> col y = Some d ->
                           exists b, col x = Some b /\ (b <= d)%Z.
Proof.
  intros Hne. unfold Sql.min_agg.
  destruct (@min_fold_inv _ col g [] (None, None))
    as [[E _]|[x [Hacc [Hin [Hbest Hmin]]]]].
  - left; auto.
  - simpl in E; contradiction.
  - simpl in Hin, Hmin. exists x. repeat split; auto.
    destruct (fold_left (Sql.min_step col) g (None, None)) as [a m].
    simpl in *; subst; reflexivity.
Qed.

Lemma in_group {A K} (dec : forall x y : K, {x = y} + {x <> y})
      (key : A -> K) l k x :
  In x (filter (fun x => if dec (key x) k then true else false) l)
  <-> In x l /\ key x = k.
Proof.
  rewrite filter_In. destruct (dec (key x) k); split; intros [H1 H2];
    (split; [assumption|]); congruence.
Qed.

(** What a result row of a grouped [MIN] query is. *)
Lemma group_min_In {A K} (dec : forall x y : K, {x = y} + {x <> y})
      (key : A -> K) (col : A -> option Z) l x m :
  In (x, m) (Sql.group_min dec key col l) ->
  In x l /\ m = col x
  /\ forall y d, In y l -> key y = key x -> col y = Some d ->
                 exists b, col x = Some b /\ (b <= d)%Z.
Proof.
  unfold Sql.group_min, Sql.group_by. rewrite in_flat_map.
  intros [g [Hg Hx]]. apply in_map_iff in Hg. destruct Hg as [k [<- Hk]].
  set (g := filter (fun x => if dec (key x) k then true else false) l) in *.
  assert (Hne : g <> []).
  { intros E. rewrite E in Hx. simpl in Hx. exact Hx. }
  destruct (min_agg_spec col Hne) as [x' [E [Hin Hmin]]].
  rewrite E in Hx. destruct Hx as [Hx|[]]. inversion Hx; subst x' m.
  apply in_group in Hin. destruct Hin as [Hin Hkey].
  repeat split; auto.
  intros y d Hy Hky Hd. apply (Hmin y d); [|assumption].
  apply in_group. split; congruence.
Qed.

Lemma group_min_keys_aux {A K} (dec : forall x y : K, {x = y} + {x <> y})
      (key : A -> K) (col : A -> option Z) l ks :
  (forall k, In k ks -> In k (map key l)) ->
  map (fun r : A * option Z => key (fst r))
      (flat_map (fun g => match Sql.min_agg col g with
                          | (Some x, m) => [(x, m)]
                          | (None, _) => []
                          end)
         (map (fun k =>
                 filter (fun x => if dec (key x) k then true else false) l)
              ks))
  = ks.
Proof.
  induction ks as [|k ks IH]; intros Hks; simpl; [reflexivity|].
  set (g := filter (fun x => if dec (key x) k then true else false) l).
  assert (Hne : g <> []).
  { assert (Hk : In k (map key l)) by (apply Hks; left; reflexivity).
    apply in_map_iff in Hk. destruct Hk as [x [E Hx]].
    assert (Hg : In x g) by (apply in_group; auto).
    intros E'. rewrite E' in Hg. exact Hg. }
  destruct (min_agg_spec col Hne) as [x [E [Hin _]]].
  rewrite E. simpl. apply in_group in Hin. destruct Hin as [_ ->].
  f_equal. apply IH. intros k' Hk'. apply Hks. right; assumption.
Qed.

(** One result row per distinct key, in the order the keys first occur. *)
Lemma group_min_keys {A K} (dec : forall x y : K, {x = y} + {x <> y})
      (key : A -> K) (col : A -> option Z) l :
  map (fun r : A * option Z => key (fst r)) (Sql.group_min dec key col l)
  = Sql.distinct dec (map key l).
Proof.
  unfold Sql.group_min, Sql.group_by. apply group_min_keys_aux.
  intros k Hk. apply SqlFacts.in_distinct in Hk. assumption.
Qed.

Lemma group_min_nil_iff {A K} (dec : forall x y : K, {x = y} + {x <> y})
      (key : A -> K) (col : A -> option Z) l :
  Sql.group_min dec key col l = [] <-> l = [].
Proof.
  split.
  - intros E. pose proof (group_min_keys dec key col l) as H.
    rewrite E in H. simpl in H. symmetry in H.
    apply SqlFacts.distinct_nil_iff in H.
    destruct l; [reflexivity | discriminate].
  - intros ->. reflexivity.
Qed.

(** Every key of the input has its result row. *)
Lemma group_min_covers {A K} (dec : forall x y : K, {x = y} + {x <> y})
      (key : A -> K) (col : A -> option Z) l y :
  In y l ->
  exists x, In (x, col x) (Sql.group_min dec key col l) /\ key x = key y.
Proof.
  intros Hy.
  assert (Hk : In (key y)
                  (map (fun r : A * option Z => key (fst r))
                       (Sql.group_min dec key col l))).
  { rewrite group_min_keys. apply SqlFacts.in_distinct.
    apply in_map; assumption. }
  apply in_map_iff in Hk. destruct Hk as [[x m] [E Hin]]. simpl in E.
  exists x. split; [|assumption].
  destruct (group_min_In _ _ _ _ _ _ Hin) as [_ [-> _]]. assumption.
Qed.

(** The first result row belongs to the group of the first input row. *)
Lemma group_min_first {A K} (dec : forall x y : K, {x = y} + {x <> y})
      (key : A -> K) (col : A -> option Z) j l :
  exists x rest,
    Sql.group_min dec key col (j :: l) = (x, col x) :: rest
    /\ key x = key j.
Proof.
  pose proof (group_min_keys dec key col (j :: l)) as H.
  simpl map in H. rewrite SqlFacts.distinct_cons in H.
  destruct (Sql.group_min dec key col (j :: l)) as [|[x m] rest] eqn:E;
    [discriminate|].
  simpl in H. injection H as Hk _.
  assert (Hin : In (x, m) (Sql.group_min dec key col (j :: l)))
    by (rewrite E; left; reflexivity).
  destruct (group_min_In _ _ _ _ _ _ Hin) as [_ [-> _]].
  exists x, rest. split; [reflexivity | exact Hk].
Qed.

End AggFacts.

(** * Facts about the row loops *)

Module ScanFacts.

(** A cursor either scans every row, or has a first failing row. *)
Lemma cursor_split {A} (rows : Rows A) :
  (exists rs, rows = cursor rs)
  \/ (exists pre e post, rows = cursor pre ++ ScanErr e :: post).
Proof.
  induction rows as [|[a|e] rows IH].
  - left; exists []; reflexivity.
  - destruct IH as [[rs ->]|[pre [e [post ->]]]].
    + left; exists (a :: rs); reflexivity.
    + right; exists (a :: pre), e, post; reflexivity.
  - right; exists [], e, rows; reflexivity.
Qed.

Lemma cursor_no_error {A} (rs : list A) e : ~ In (ScanErr e) (cursor rs).
Proof.
  unfold cursor. rewrite in_map_iff. intros [x [E _]]. discriminate.
Qed.

Lemma ListPackages_scan_cursor rows acc :
  ListPackages_scan (cursor rows) acc
  = (acc ++ flat_map (fun v : option string =>
                        match v with Some n => [n] | None => [] end) rows,
     None).
Proof.
  revert acc; induction rows as [|[n|] rows IH]; intros acc; simpl.
  - rewrite app_nil_r; reflexivity.
  - rewrite IH, <- app_assoc; reflexivity.
  - apply IH.
Qed.

Lemma Replace_scan_cursor rows name acc :
  GetChannelEntriesThatReplace_scan (cursor rows) name acc
  = let entries := acc ++ map (scan_replace name) rows in
    if Nat.eqb (List.length entries) 0
    then (entries,
          Some (NotFound ("no channel entries found that replace " ++ name)))
    else (entries, None).
Proof.
  revert acc; induction rows as [|r rows IH]; intros acc; simpl.
  - rewrite app_nil_r; reflexivity.
  - rewrite IH, <- app_assoc; reflexivity.
Qed.

Lemma Replace_scan_error pre e post name acc :
  GetChannelEntriesThatReplace_scan (cursor pre ++ ScanErr e :: post) name acc
  = (acc ++ map (scan_replace name) pre, Some e).
Proof.
  revert acc; induction pre as [|r pre IH]; intros acc; simpl.
  - rewrite app_nil_r; reflexivity.
  - rewrite IH, <- app_assoc; reflexivity.
Qed.

Lemma Provide_scan_cursor rows g v k acc :
  GetChannelEntriesThatProvide_scan (cursor rows) g v k acc
  = let entries := acc ++ map scan_provide rows in
    if Nat.eqb (List.length entries) 0
    then (entries, Some (provide_not_found g v k))
    else (entries, None).
Proof.
  revert acc; induction rows as [|r rows IH]; intros acc; simpl.
  - rewrite app_nil_r; reflexivity.
  - rewrite IH, <- app_assoc; reflexivity.
Qed.

Lemma Provide_scan_error pre e post g v k acc :
  GetChannelEntriesThatProvide_scan (cursor pre ++ ScanErr e :: post)
    g v k acc
  = (acc ++ map scan_provide pre, Some e).
Proof.
  revert acc; induction pre as [|r pre IH]; intros acc; simpl.
  - rewrite app_nil_r; reflexivity.
  - rewrite IH, <- app_assoc; reflexivity.
Qed.

Lemma Latest_scan_cursor (rows : list latest_row) g v k acc :
  GetLatestChannelEntriesThatProvide_scan (cursor rows) g v k acc
  = let entries := acc ++ map (fun r => scan_provide (fst r)) rows in
    if Nat.eqb (List.length entries) 0
    then ([], Some (provide_not_found g v k))
    else (entries, None).
Proof.
  revert acc; induction rows as [|[r m] rows IH]; intros acc; simpl.
  - rewrite app_nil_r; reflexivity.
  - rewrite IH, <- app_assoc; reflexivity.
Qed.

Lemma Latest_scan_error (pre : list latest_row) e post g v k acc :
  GetLatestChannelEntriesThatProvide_scan (cursor pre ++ ScanErr e :: post)
    g v k acc
  = ([], Some e).
Proof.
  revert acc; induction pre as [|[r m] pre IH]; intros acc; simpl.
  - reflexivity.
  - apply IH.
Qed.

End ScanFacts.

(** * The operations *)

Lemma nil_when_no_member {A} (l : list A) : (forall x, ~ In x l) -> l = [].
Proof.
  destruct l as [|x l]; [reflexivity|].
  intros H. exfalso. apply (H x). left; reflexivity.
Qed.

(** ** GetPackage *)

(** The rows of the package/channel join for a name. *)
Lemma GetPackage_query_In d name r :
  In r (GetPackage_query d name)
  <-> exists p c,
      In p (package d) /\ In c (channel d)
      /\ package_name p = Some name /\ channel_package_name c = Some name
      /\ r = (package_name p, package_default_channel p, channel_name c,
              channel_head_operatorbundle_name c).
Proof.
  unfold GetPackage_query.
  rewrite SqlFacts.in_distinct, in_map_iff. split.
  - intros [[p c] [<- H]]. apply filter_In in H. destruct H as [Hj Hw].
    apply SqlFacts.in_inner_join in Hj. destruct Hj as [Hp [Hc Hon]].
    simpl in *. apply SqlFacts.is_text_true in Hw.
    apply SqlFacts.eq_text_true in Hon. destruct Hon as [n [Hcn Hpn]].
    exists p, c. repeat split; auto. congruence.
  - intros [p [c [Hp [Hc [Hpn [Hcn ->]]]]]]. exists (p, c).
    split; [reflexivity|]. apply filter_In. split.
    + apply SqlFacts.in_inner_join. repeat split; auto.
      apply SqlFacts.eq_text_true. eauto.
    + simpl. apply SqlFacts.is_text_true. assumption.
Qed.

Lemma GetPackage_no_row s name :
  GetPackage_query (db s) name = [] ->
  GetPackage s name
  = (None, Some (NotFound ("package " ++ name ++ " not found"))).
Proof. unfold GetPackage. intros ->. reflexivity. Qed.

Lemma GetPackage_some_row s name :
  GetPackage_query (db s) name <> [] ->
  exists m, GetPackage s name = (Some m, None)
            /\ Channels m
               = map scan_channel (firstn 2 (GetPackage_query (db s) name))
            /\ 1 <= List.length (Channels m) <= 2.
Proof.
  unfold GetPackage. intros Hne.
  destruct (GetPackage_query (db s) name) as [|[[[pn dc] cn] bn] rest];
    [contradiction|].
  destruct rest as [|r' rest]; simpl; eexists; (split; [reflexivity|]);
    simpl; split; try reflexivity; lia.
Qed.

(** C10: a package row with the name exists, but no channel row names that
    package: the join is empty and GetPackage fails with the "not found"
    error. *)
Theorem GetPackage_without_channel s name p :
  In p (package (db s)) ->
  package_name p = Some name ->
  (forall c, In c (channel (db s)) -> channel_package_name c <> Some name) ->
  GetPackage s name
  = (None, Some (NotFound ("package " ++ name ++ " not found"))).
Proof.
  intros _ _ Hno. apply GetPackage_no_row, nil_when_no_member.
  intros r Hr. apply GetPackage_query_In in Hr.
  destruct Hr as [p' [c [_ [Hc [_ [Hcn _]]]]]]. exact (Hno c Hc Hcn).
Qed.

Lemma GetPackage_without_channel_witness :
  In etcd_package (package lonely_package_db)
  /\ GetPackage {| db := lonely_package_db |} "etcd"
     = (None, Some (NotFound "package etcd not found")).
Proof.
  split; [left; reflexivity|].
  apply (@GetPackage_without_channel {| db := lonely_package_db |} "etcd"
           etcd_package).
  - left; reflexivity.
  - reflexivity.
  - intros c [].
Defined.

(** C4, as stated, fails on a package that has no channel: the package row
    matches the name, and no manifest comes back. *)
Lemma GetPackage_dichotomy_fails :
  ~ GetPackage_dichotomy {| db := lonely_package_db |} "etcd".
Proof.
  intros [_ H]. destruct H as [m [E _]].
  - exists etcd_package. split; [left|]; reflexivity.
  - vm_compute in E. discriminate.
Qed.

(** C4, amended: GetPackage fails with NotFound when no package row has the
    name, and also when no channel row names the package; as soon as the
    package/channel join has a row it returns a manifest holding the first
    two distinct rows of the join as channels, one at least and two at most,
    and nothing of the rows after the second reaches the result. *)
Theorem GetPackage_first_two_rows s name :
  ((forall p, In p (package (db s)) -> package_name p <> Some name) ->
   GetPackage s name
   = (None, Some (NotFound ("package " ++ name ++ " not found"))))
  /\ ((forall c, In c (channel (db s)) ->
                 channel_package_name c <> Some name) ->
      GetPackage s name
      = (None, Some (NotFound ("package " ++ name ++ " not found"))))
  /\ ((exists p c, In p (package (db s)) /\ In c (channel (db s))
                   /\ package_name p = Some name
                   /\ channel_package_name c = Some name) ->
      exists m, GetPackage s name = (Some m, None)
                /\ Channels m
                   = map scan_channel
                         (firstn 2 (GetPackage_query (db s) name))
                /\ 1 <= List.length (Channels m) <= 2)
  /\ GetPackage s name
     = GetPackage_scan (cursor (firstn 2 (GetPackage_query (db s) name)))
                       name.
Proof.
  repeat split.
  - intros Hno. apply GetPackage_no_row, nil_when_no_member.
    intros r Hr. apply GetPackage_query_In in Hr.
    destruct Hr as [p [c [Hp [_ [Hpn _]]]]]. exact (Hno p Hp Hpn).
  - intros Hno. apply GetPackage_no_row, nil_when_no_member.
    intros r Hr. apply GetPackage_query_In in Hr.
    destruct Hr as [p [c [_ [Hc [_ [Hcn _]]]]]]. exact (Hno c Hc Hcn).
  - intros [p [c [Hp [Hc [Hpn Hcn]]]]]. apply GetPackage_some_row.
    intros E.
    assert (Hin : In (package_name p, package_default_channel p,
                      channel_name c, channel_head_operatorbundle_name c)
                     (GetPackage_query (db s) name)).
    { apply GetPackage_query_In. exists p, c. auto. }
    rewrite E in Hin. exact Hin.
  - unfold GetPackage.
    destruct (GetPackage_query (db s) name) as [|r [|r' rest]]; reflexivity.
Qed.

Lemma GetPackage_first_two_rows_witness :
  (exists p c, In p (package three_channel_db)
               /\ In c (channel three_channel_db)
               /\ package_name p = Some "etcd"%string
               /\ channel_package_name c = Some "etcd"%string)
  /\ exists m, GetPackage {| db := three_channel_db |} "etcd" = (Some m, None)
               /\ Channels m
                  = [{| Name := "alpha"; CurrentCSVName := "etcd.v1.0.0" |};
                     {| Name := "beta"; CurrentCSVName := "etcd.v0.9.0" |}].
Proof.
  assert (H : exists p c, In p (package three_channel_db)
                          /\ In c (channel three_channel_db)
                          /\ package_name p = Some "etcd"%string
                          /\ channel_package_name c = Some "etcd"%string).
  { exists etcd_package, etcd_alpha. repeat split; left; reflexivity. }
  split; [exact H|].
  destruct (GetPackage_first_two_rows {| db := three_channel_db |} "etcd")
    as [_ [_ [Hsome _]]].
  destruct (Hsome H) as [m [E [Hch _]]].
  exists m. split; [exact E|]. rewrite Hch. reflexivity.
Defined.

(** ** The empty catalog *)

(** C7: on a store without any row, ListPackages returns the empty list and
    no error, and each of the eight other operations fails with its "not
    found" error, whatever the arguments. *)
Theorem empty_catalog :
  let s := {| db := empty_db |} in
  ListPackages s = ([], None)
  /\ (forall name,
        GetPackage s name
        = (None, Some (NotFound ("package " ++ name ++ " not found"))))
  /\ (forall pkgName channelName,
        GetBundleForChannel s pkgName channelName
        = (EmptyString,
           Some (NotFound ("no bundle found for " ++ pkgName ++ " "
                           ++ channelName))))
  /\ (forall name,
        GetBundleForName s name
        = (EmptyString, Some (NotFound ("no bundle found named " ++ name))))
  /\ (forall name,
        GetChannelEntriesThatReplace s name
        = ([], Some (NotFound ("no channel entries found that replace "
                               ++ name))))
  /\ (forall name pkgName channelName,
        GetBundleThatReplaces s name pkgName channelName
        = (EmptyString,
           Some (NotFound ("no bundle found that replaces " ++ name))))
  /\ (forall g v k,
        GetChannelEntriesThatProvide s g v k
        = ([], Some (provide_not_found g v k)))
  /\ (forall g v k,
        GetLatestChannelEntriesThatProvide s g v k
        = ([], Some (provide_not_found g v k)))
  /\ (forall g v k,
        GetBundleThatProvides s g v k
        = (EmptyString, Some (bundle_not_found g v k))).
Proof. repeat split. Qed.

(** ** Faults of the driver *)

Lemma skipn_in_range {A} n (l : list A) :
  n < List.length l -> exists x rest, skipn n l = x :: rest.
Proof.
  revert l; induction n as [|n IH]; intros [|x l] H; simpl in *;
    try lia; eauto.
  apply IH. lia.
Qed.

(** Within range, a [Scan] fault puts a failing row behind the rows before
    it. *)
Lemma open_cursor_scan_fault {A} n e (rs : list A) :
  n < List.length rs ->
  exists post,
    delivered (open_cursor (ScanFault n e) rs)
    = cursor (firstn n rs) ++ ScanErr e :: post.
Proof.
  intros H. destruct (@skipn_in_range _ n rs H) as [x [rest E]].
  simpl. rewrite E. eauto.
Qed.

Lemma Replace_scan_complete (rows : Rows replace_row) name entries :
  GetChannelEntriesThatReplace_scan rows name [] = (entries, None) ->
  exists rs, rows = cursor rs /\ entries = map (scan_replace name) rs.
Proof.
  intros E.
  destruct (ScanFacts.cursor_split rows) as [[rs ->]|[pre [e' [post ->]]]].
  - exists rs. split; [reflexivity|].
    rewrite ScanFacts.Replace_scan_cursor in E. simpl in E.
    destruct (Nat.eqb _ 0); inversion E; reflexivity.
  - rewrite ScanFacts.Replace_scan_error in E. discriminate.
Qed.

Lemma Provide_scan_complete (rows : Rows provide_row) g v k entries :
  GetChannelEntriesThatProvide_scan rows g v k [] = (entries, None) ->
  exists rs, rows = cursor rs /\ entries = map scan_provide rs.
Proof.
  intros E.
  destruct (ScanFacts.cursor_split rows) as [[rs ->]|[pre [e' [post ->]]]].
  - exists rs. split; [reflexivity|].
    rewrite ScanFacts.Provide_scan_cursor in E. simpl in E.
    destruct (Nat.eqb _ 0); inversion E; reflexivity.
  - rewrite ScanFacts.Provide_scan_error in E. discriminate.
Qed.

Lemma Latest_scan_complete (rows : Rows latest_row) g v k entries :
  GetLatestChannelEntriesThatProvide_scan rows g v k [] = (entries, None) ->
  exists rs, rows = cursor rs
             /\ entries = map (fun r : latest_row => scan_provide (fst r)) rs.
Proof.
  intros E.
  destruct (ScanFacts.cursor_split rows) as [[rs ->]|[pre [e' [post ->]]]].
  - exists rs. split; [reflexivity|].
    rewrite ScanFacts.Latest_scan_cursor in E. simpl in E.
    destruct (Nat.eqb _ 0); inversion E; reflexivity.
  - rewrite ScanFacts.Latest_scan_error in E. discriminate.
Qed.

(** C8, as stated, fails when [Next] fails after the first of the two rows
    that provide the API in the chain catalog: one entry is returned, and
    no error. *)
Lemma interrupted_listing_succeeds :
  ~ no_partial_success {| db := chain_db |} "B" "g" "v" "k".
Proof.
  intros H.
  destruct (H (NextFault 1 (DriverError "context canceled")))
    as [_ [[_ Hall] _]].
  specialize (Hall eq_refl). vm_compute in Hall. discriminate.
Qed.

(** C8, amended: in the three listing operations a [Scan] that fails on a
    selected row makes the operation return that error
    (GetLatestChannelEntriesThatProvide with no entry), and a result without
    error holds the decoding of every row the cursor delivered.  A [Next]
    that fails after [n] rows is not noticed: the operation answers as if
    the query had selected those [n] rows only, with their entries and no
    error, or with the "not found" error when [n] is 0.  Without fault the
    operations are the ones defined above. *)
Theorem listing_under_faults s name g v k :
  ((forall n e,
       n < List.length (GetChannelEntriesThatReplace_query (db s) name) ->
       snd (GetChannelEntriesThatReplace_under (ScanFault n e) s name)
       = Some e)
   /\ (forall n e,
         n < List.length (GetChannelEntriesThatProvide_query (db s) g v k) ->
         snd (GetChannelEntriesThatProvide_under (ScanFault n e) s g v k)
         = Some e)
   /\ (forall n e,
         n < List.length
               (GetLatestChannelEntriesThatProvide_query (db s) g v k) ->
         GetLatestChannelEntriesThatProvide_under (ScanFault n e) s g v k
         = ([], Some e)))
  /\ ((forall f entries,
         GetChannelEntriesThatReplace_under f s name = (entries, None) ->
         exists rs,
           delivered (open_cursor f (GetChannelEntriesThatReplace_query
                                       (db s) name)) = cursor rs
           /\ entries = map (scan_replace name) rs)
      /\ (forall f entries,
            GetChannelEntriesThatProvide_under f s g v k = (entries, None) ->
            exists rs,
              delivered (open_cursor f (GetChannelEntriesThatProvide_query
                                          (db s) g v k)) = cursor rs
              /\ entries = map scan_provide rs)
      /\ (forall f entries,
            GetLatestChannelEntriesThatProvide_under f s g v k
            = (entries, None) ->
            exists rs,
              delivered (open_cursor f
                           (GetLatestChannelEntriesThatProvide_query
                              (db s) g v k)) = cursor rs
              /\ entries = map (fun r : latest_row => scan_provide (fst r))
                               rs))
  /\ ((forall n e,
         GetChannelEntriesThatReplace_under (NextFault n e) s name
         = match firstn n (GetChannelEntriesThatReplace_query (db s) name)
           with
           | [] => ([], Some (NotFound
                                ("no channel entries found that replace "
                                 ++ name)))
           | rows => (map (scan_replace name) rows, None)
           end)
      /\ (forall n e,
            GetChannelEntriesThatProvide_under (NextFault n e) s g v k
            = match firstn n (GetChannelEntriesThatProvide_query
                                (db s) g v k) with
              | [] => ([], Some (provide_not_found g v k))
              | rows => (map scan_provide rows, None)
              end)
      /\ (forall n e,
            GetLatestChannelEntriesThatProvide_under (NextFault n e) s g v k
            = match firstn n (GetLatestChannelEntriesThatProvide_query
                                (db s) g v k) with
              | [] => ([], Some (provide_not_found g v k))
              | rows =>
                  (map (fun r : latest_row => scan_provide (fst r)) rows,
                   None)
              end))
  /\ (GetChannelEntriesThatReplace_under NoFault s name
      = GetChannelEntriesThatReplace s name
      /\ GetChannelEntriesThatProvide_under NoFault s g v k
         = GetChannelEntriesThatProvide s g v k
      /\ GetLatestChannelEntriesThatProvide_under NoFault s g v k
         = GetLatestChannelEntriesThatProvide s g v k).
Proof.
  split; [|split; [|split]].
  - split; [|split]; intros n e Hn.
    + unfold GetChannelEntriesThatReplace_under.
      destruct (@open_cursor_scan_fault _ n e _ Hn) as [post ->].
      rewrite ScanFacts.Replace_scan_error. reflexivity.
    + unfold GetChannelEntriesThatProvide_under.
      destruct (@open_cursor_scan_fault _ n e _ Hn) as [post ->].
      rewrite ScanFacts.Provide_scan_error. reflexivity.
    + unfold GetLatestChannelEntriesThatProvide_under.
      destruct (@open_cursor_scan_fault _ n e _ Hn) as [post ->].
      apply ScanFacts.Latest_scan_error.
  - split; [|split]; intros f entries E.
    + apply Replace_scan_complete. exact E.
    + apply (@Provide_scan_complete _ g v k). exact E.
    + apply (@Latest_scan_complete _ g v k). exact E.
  - split; [|split]; intros n e.
    + unfold GetChannelEntriesThatReplace_under. simpl delivered.
      rewrite ScanFacts.Replace_scan_cursor. simpl.
      destruct (firstn n _); reflexivity.
    + unfold GetChannelEntriesThatProvide_under. simpl delivered.
      rewrite ScanFacts.Provide_scan_cursor. simpl.
      destruct (firstn n _); reflexivity.
    + unfold GetLatestChannelEntriesThatProvide_under. simpl delivered.
      rewrite ScanFacts.Latest_scan_cursor. simpl.
      destruct (firstn n _); reflexivity.
  - repeat split.
Qed.

Lemma listing_under_faults_witness :
  let s := {| db := chain_db |} in
  let e := DriverError "sql: Rows are closed" in
  (0 < List.length (GetChannelEntriesThatReplace_query chain_db "B")
   /\ 1 < List.length (GetChannelEntriesThatProvide_query chain_db
                         "g" "v" "k")
   /\ 0 < List.length (GetLatestChannelEntriesThatProvide_query chain_db
                         "g" "v" "k"))
  /\ snd (GetChannelEntriesThatReplace_under (ScanFault 0 e) s "B") = Some e
  /\ snd (GetChannelEntriesThatProvide_under (ScanFault 1 e) s "g" "v" "k")
     = Some e
  /\ GetLatestChannelEntriesThatProvide_under (ScanFault 0 e) s "g" "v" "k"
     = ([], Some e)
  /\ exists entries,
      GetChannelEntriesThatProvide_under (NextFault 1 e) s "g" "v" "k"
      = (entries, None)
      /\ List.length entries = 1.
Proof.
  intros s e.
  assert (H1 : 0 < List.length
                     (GetChannelEntriesThatReplace_query chain_db "B"))
    by (vm_compute; lia).
  assert (H2 : 1 < List.length
                     (GetChannelEntriesThatProvide_query chain_db
                        "g" "v" "k"))
    by (vm_compute; lia).
  assert (H3 : 0 < List.length
                     (GetLatestChannelEntriesThatProvide_query chain_db
                        "g" "v" "k"))
    by (vm_compute; lia).
  destruct (listing_under_faults s "B" "g" "v" "k")
    as [[S1 [S2 S3]] [_ [[_ [N2 _]] _]]].
  split; [auto|].
  split; [apply S1; exact H1|].
  split; [apply S2; exact H2|].
  split; [apply S3; exact H3|].
  eexists. split; [rewrite N2; reflexivity | reflexivity].
Defined.

(** ** GetChannelEntriesThatReplace *)

Lemma Replace_query_In d name row :
  In row (GetChannelEntriesThatReplace_query d name)
  <-> exists e r,
      replaces_edge d name e r
      /\ row = (entry_package_name e, entry_channel_name e,
                entry_operatorbundle_name e).
Proof.
  unfold GetChannelEntriesThatReplace_query, replaces_edge.
  rewrite SqlFacts.in_distinct, in_map_iff. split.
  - intros [[e o] [<- H]]. apply filter_In in H. destruct H as [Hj Hw].
    simpl in Hw. apply SqlFacts.is_text_true in Hw.
    destruct o as [r|]; [|discriminate]. simpl in Hw.
    apply SqlFacts.in_left_outer_join_some in Hj.
    destruct Hj as [He [Hr Hon]]. exists e, r. auto.
  - intros [e [r [[He [Hr [Hon Hn]]] ->]]]. exists (e, Some r).
    split; [reflexivity|]. apply filter_In. split.
    + apply SqlFacts.in_left_outer_join_some. auto.
    + simpl. apply SqlFacts.is_text_true. assumption.
Qed.

Lemma Replace_result s name :
  GetChannelEntriesThatReplace s name
  = match GetChannelEntriesThatReplace_query (db s) name with
    | [] => ([], Some (NotFound ("no channel entries found that replace "
                                 ++ name)))
    | rows => (map (scan_replace name) rows, None)
    end.
Proof.
  unfold GetChannelEntriesThatReplace.
  rewrite ScanFacts.Replace_scan_cursor. simpl.
  destruct (GetChannelEntriesThatReplace_query (db s) name); reflexivity.
Qed.

(** C6: the entries returned for [name] are the channel entries whose
    replaces-edge points at an entry carrying [name], as (package, channel,
    bundle) with NULL read as the empty string and [Replaces] set to [name];
    when there is none the call fails with a "not found" error that only
    depends on [name], so that two catalogs without such an entry, whether
    they know the bundle or not, give the same failure.  In the chain
    head -> A -> B -> C, asking for B returns the entry of A. *)
Theorem GetChannelEntriesThatReplace_spec s name :
  ((forall e r, ~ replaces_edge (db s) name e r) ->
   GetChannelEntriesThatReplace s name
   = ([], Some (NotFound ("no channel entries found that replace " ++ name))))
  /\ ((exists e r, replaces_edge (db s) name e r) ->
      exists entries,
        GetChannelEntriesThatReplace s name = (entries, None)
        /\ entries <> []
        /\ forall t,
            In t entries
            <-> exists e r,
                replaces_edge (db s) name e r
                /\ t = scan_replace name
                         (entry_package_name e, entry_channel_name e,
                          entry_operatorbundle_name e))
  /\ (forall t, In t (fst (GetChannelEntriesThatReplace s name)) ->
                ChannelEntry.Replaces t = name)
  /\ (forall s',
        (forall e r, ~ replaces_edge (db s) name e r) ->
        (forall e r, ~ replaces_edge (db s') name e r) ->
        GetChannelEntriesThatReplace s name
        = GetChannelEntriesThatReplace s' name)
  /\ GetChannelEntriesThatReplace {| db := chain_db |} "B"
     = ([{| ChannelEntry.PackageName := "P"; ChannelEntry.ChannelName := "Ch";
            ChannelEntry.BundleName := "A"; ChannelEntry.Replaces := "B" |}],
        None).
Proof.
  assert (Hnone : forall s0,
             (forall e r, ~ replaces_edge (db s0) name e r) ->
             GetChannelEntriesThatReplace s0 name
             = ([], Some (NotFound ("no channel entries found that replace "
                                    ++ name)))).
  { intros s0 Hno. rewrite Replace_result.
    rewrite (nil_when_no_member
               (GetChannelEntriesThatReplace_query (db s0) name));
      [reflexivity|].
    intros row Hrow. apply Replace_query_In in Hrow.
    destruct Hrow as [e [r [H _]]]. exact (Hno e r H). }
  split; [apply Hnone|]. split; [|split; [|split; [|reflexivity]]].
  - intros [e [r Hedge]]. rewrite Replace_result.
    destruct (GetChannelEntriesThatReplace_query (db s) name)
      as [|row rows] eqn:Q.
    + assert (Hin : In (entry_package_name e, entry_channel_name e,
                        entry_operatorbundle_name e)
                       (GetChannelEntriesThatReplace_query (db s) name)).
      { apply Replace_query_In. exists e, r. auto. }
      rewrite Q in Hin. destruct Hin.
    + eexists. split; [reflexivity|]. split; [discriminate|].
      intros t. rewrite <- Q. rewrite in_map_iff. split.
      * intros [row' [<- Hrow]]. apply Replace_query_In in Hrow.
        destruct Hrow as [e' [r' [H ->]]]. exists e', r'. auto.
      * intros [e' [r' [H ->]]]. eexists. split; [reflexivity|].
        apply Replace_query_In. exists e', r'. auto.
  - intros t. rewrite Replace_result.
    destruct (GetChannelEntriesThatReplace_query (db s) name)
      as [|row rows]; [intros []|].
    unfold fst. intros Ht. apply in_map_iff in Ht.
    destruct Ht as [[[p c] b] [<- _]]. reflexivity.
  - intros s' H H'. rewrite (Hnone s H), (Hnone s' H'). reflexivity.
Qed.

Lemma GetChannelEntriesThatReplace_spec_witness :
  (exists e r, replaces_edge chain_db "B" e r)
  /\ exists entries,
      GetChannelEntriesThatReplace {| db := chain_db |} "B" = (entries, None)
      /\ entries <> [].
Proof.
  assert (H : exists e r, replaces_edge chain_db "B" e r).
  { exists (entry 2 "Ch" "P" "A" (Some 3%Z) 1),
           (entry 3 "Ch" "P" "B" (Some 4%Z) 2).
    repeat split; simpl; auto. }
  split; [exact H|].
  destruct (GetChannelEntriesThatReplace_spec {| db := chain_db |} "B")
    as [_ [Hsome _]].
  destruct (Hsome H) as [entries [E [Hne _]]].
  exists entries. split; assumption.
Defined.

(** ** GetBundleThatReplaces *)

Lemma limit_one_distinct {A} (dec : forall x y : A, {x = y} + {x <> y}) l :
  Sql.limit 1 (Sql.distinct dec l)
  = match l with [] => [] | x :: _ => [x] end.
Proof. destruct l; reflexivity. Qed.

Lemma replaces_join_In d name pkgName channelName e o b :
  In (e, o, b) (replaces_join d name pkgName channelName)
  <-> exists r, o = Some r /\ replaced_by d name pkgName channelName e r b.
Proof.
  unfold replaces_join, replaced_by. rewrite filter_In.
  rewrite SqlFacts.in_inner_join. simpl.
  rewrite !andb_true_iff, !SqlFacts.is_text_true. split.
  - intros [[Hj [Hb Hon]] [[Hn Hp] Hc]].
    destruct o as [r|]; [|discriminate].
    apply SqlFacts.in_left_outer_join_some in Hj.
    destruct Hj as [He [Hr Hrep]]. exists r. simpl in Hon. tauto.
  - intros [r [-> [He [Hr [Hb [Hn [Hp [Hc [Hrep Hon]]]]]]]]].
    repeat split; auto.
    apply SqlFacts.in_left_outer_join_some. auto.
Qed.

Lemma BundleThatReplaces_query_cases d name pkgName channelName :
  (GetBundleThatReplaces_query d name pkgName channelName = []
   /\ forall e r b, ~ replaced_by d name pkgName channelName e r b)
  \/ (exists e r b,
        replaced_by d name pkgName channelName e r b
        /\ GetBundleThatReplaces_query d name pkgName channelName
           = [operatorbundle_bundle b]).
Proof.
  unfold GetBundleThatReplaces_query. rewrite limit_one_distinct.
  destruct (replaces_join d name pkgName channelName)
    as [|[[e o] b] rest] eqn:J.
  - left. split; [reflexivity|]. intros e r b H.
    assert (Hin : In (e, Some r, b)
                     (replaces_join d name pkgName channelName)).
    { apply replaces_join_In. eauto. }
    rewrite J in Hin. exact Hin.
  - right.
    assert (Hin : In (e, o, b) (replaces_join d name pkgName channelName)).
    { rewrite J. left; reflexivity. }
    apply replaces_join_In in Hin. destruct Hin as [r [_ H]].
    exists e, r, b. split; [assumption | reflexivity].
Qed.

(** C3: GetBundleThatReplaces(name, package, channel) returns the payload
    (NULL read as the empty string) of the bundle of an entry whose
    replaces-edge points at an entry carrying [name] in (package, channel);
    it returns one as soon as such an entry with a bundle row exists, and
    fails with the "not found" error when no replaces-edge points at such an
    entry.  In the chain head -> A -> B -> C, asking for B gives the payload
    of A. *)
Theorem GetBundleThatReplaces_spec s name pkgName channelName :
  ((forall e r, ~ (In e (channel_entry (db s))
                   /\ In r (channel_entry (db s))
                   /\ entry_operatorbundle_name e = Some name
                   /\ entry_package_name e = Some pkgName
                   /\ entry_channel_name e = Some channelName
                   /\ Sql.eq_int (entry_replaces r) (entry_id e) = true)) ->
   GetBundleThatReplaces s name pkgName channelName
   = (EmptyString, Some (NotFound ("no bundle found that replaces " ++ name))))
  /\ ((exists e r b, replaced_by (db s) name pkgName channelName e r b) ->
      exists e r b,
        replaced_by (db s) name pkgName channelName e r b
        /\ GetBundleThatReplaces s name pkgName channelName
           = (NullString.String (NullString.Scan (operatorbundle_bundle b)),
              None))
  /\ (forall payload,
        GetBundleThatReplaces s name pkgName channelName = (payload, None) ->
        exists e r b,
          replaced_by (db s) name pkgName channelName e r b
          /\ payload
             = NullString.String (NullString.Scan (operatorbundle_bundle b)))
  /\ GetBundleThatReplaces {| db := chain_db |} "B" "P" "Ch"
     = ("payload-A"%string, None).
Proof.
  unfold GetBundleThatReplaces.
  split; [|split; [|split; [|reflexivity]]].
  - intros Hno.
    destruct (BundleThatReplaces_query_cases (db s) name pkgName channelName)
      as [[-> _]|[e [r [b [H _]]]]]; [reflexivity|].
    exfalso. apply (Hno e r). unfold replaced_by in H. tauto.
  - intros [e [r [b H]]].
    destruct (BundleThatReplaces_query_cases (db s) name pkgName channelName)
      as [[_ Hno]|[e' [r' [b' [H' ->]]]]].
    + destruct (Hno e r b H).
    + exists e', r', b'. split; [assumption | reflexivity].
  - intros payload E.
    destruct (BundleThatReplaces_query_cases (db s) name pkgName channelName)
      as [[Q _]|[e' [r' [b' [H' Q]]]]]; rewrite Q in E; simpl in E.
    + discriminate.
    + inversion E. exists e', r', b'. split; [assumption | reflexivity].
Qed.

Lemma GetBundleThatReplaces_spec_witness :
  (exists e r b, replaced_by chain_db "B" "P" "Ch" e r b)
  /\ exists payload,
      GetBundleThatReplaces {| db := chain_db |} "B" "P" "Ch"
      = (payload, None).
Proof.
  assert (H : exists e r b, replaced_by chain_db "B" "P" "Ch" e r b).
  { exists (entry 3 "Ch" "P" "B" (Some 4%Z) 2),
           (entry 2 "Ch" "P" "A" (Some 3%Z) 1),
           {| operatorbundle_name := Some "A"%string;
              operatorbundle_bundle := Some "payload-A"%string |}.
    repeat split; simpl; auto. }
  split; [exact H|].
  destruct (GetBundleThatReplaces_spec {| db := chain_db |} "B" "P" "Ch")
    as [_ [Hsome _]].
  destruct (Hsome H) as [e [r [b [_ E]]]].
  eexists. exact E.
Defined.

(** ** GetLatestChannelEntriesThatProvide *)

Lemma left_outer_join_covers {A B} (on : A -> B -> bool) l r a :
  In a l -> exists o, In (a, o) (Sql.left_outer_join on l r).
Proof.
  intros Ha. destruct (filter (on a) r) as [|b ms] eqn:F.
  - exists None. apply SqlFacts.in_left_outer_join_none.
    split; [assumption|]. intros b Hb.
    destruct (on a b) eqn:O; [|reflexivity].
    assert (Hf : In b (filter (on a) r)) by (apply filter_In; auto).
    rewrite F in Hf. destruct Hf.
  - exists (Some b). apply SqlFacts.in_left_outer_join_some.
    assert (Hf : In b (filter (on a) r)) by (rewrite F; left; reflexivity).
    apply filter_In in Hf. tauto.
Qed.

Lemma left_outer_join_left {A B} (on : A -> B -> bool) l r a o :
  In (a, o) (Sql.left_outer_join on l r) -> In a l.
Proof.
  destruct o as [b|]; intros H.
  - apply SqlFacts.in_left_outer_join_some in H. tauto.
  - apply SqlFacts.in_left_outer_join_none in H. tauto.
Qed.

Lemma providers_entry d g v k j :
  In j (providers d g v k) -> provides_api d g v k (fst (fst j)).
Proof.
  destruct j as [[e a] o]. unfold providers. rewrite filter_In. simpl.
  rewrite !andb_true_iff, !SqlFacts.is_text_true.
  intros [Hj [[Hg Hv] Hk]]. apply left_outer_join_left in Hj.
  apply SqlFacts.in_inner_join in Hj. destruct Hj as [He [Ha Hon]].
  split; [assumption|]. exists a. auto.
Qed.

Lemma providers_of_entry d g v k e :
  provides_api d g v k e ->
  exists j, In j (providers d g v k) /\ fst (fst j) = e.
Proof.
  intros [He [a [Ha [Hon [Hg [Hv Hk]]]]]].
  destruct (left_outer_join_covers
              (fun (ea : channel_entry_row * api_provider_row) replaces =>
                 Sql.eq_int (entry_replaces (fst ea)) (entry_id replaces))
              (Sql.inner_join
                 (fun e a =>
                    Sql.eq_int (entry_id e) (provider_channel_entry_id a))
                 (channel_entry d) (api_provider d))
              (channel_entry d) (e, a)) as [o Ho].
  { apply SqlFacts.in_inner_join. auto. }
  exists (e, a, o). split; [|reflexivity].
  unfold providers. apply filter_In. split; [exact Ho|]. simpl.
  rewrite !andb_true_iff, !SqlFacts.is_text_true. auto.
Qed.

(** [DISTINCT] has nothing to remove after the grouping: the rows differ
    in their (package, channel) columns. *)
Lemma Latest_query_eq d g v k :
  GetLatestChannelEntriesThatProvide_query d g v k
  = map (fun jm : provider_join * option Z =>
           (provide_columns (fst jm), snd jm))
        (Sql.group_min key_dec entry_key provider_depth
           (providers d g v k)).
Proof.
  unfold GetLatestChannelEntriesThatProvide_query.
  apply SqlFacts.distinct_NoDup.
  apply (NoDup_map_inv
           (fun r : latest_row =>
              (fst (fst (fst (fst r))), snd (fst (fst (fst r)))))).
  rewrite map_map. simpl.
  change (NoDup (map (fun r : provider_join * option Z => entry_key (fst r))
                     (Sql.group_min key_dec entry_key provider_depth
                        (providers d g v k)))).
  rewrite AggFacts.group_min_keys. apply SqlFacts.NoDup_distinct.
Qed.

Lemma Latest_result s g v k :
  GetLatestChannelEntriesThatProvide s g v k
  = match providers (db s) g v k with
    | [] => ([], Some (provide_not_found g v k))
    | rows =>
        (map (fun jm : provider_join * option Z =>
                scan_provide (provide_columns (fst jm)))
             (Sql.group_min key_dec entry_key provider_depth rows),
         None)
    end.
Proof.
  unfold GetLatestChannelEntriesThatProvide.
  rewrite ScanFacts.Latest_scan_cursor, Latest_query_eq. simpl.
  rewrite map_map. simpl.
  destruct (providers (db s) g v k) as [|j rows] eqn:P; [reflexivity|].
  destruct (AggFacts.group_min_first key_dec entry_key provider_depth j rows)
    as [x [rest [-> _]]].
  reflexivity.
Qed.

(** C2: when some entry provides the API, the call succeeds and returns one
    entry per (package, channel) that has a provider: the keys of the rows
    behind the returned entries are pairwise different, every provider's
    (package, channel) is among them, and each row is a provider that no
    provider of the same (package, channel) undercuts in depth.  When no
    entry provides the API the call fails with the "not found" error.  In
    the chain head -> A -> B -> C with B and C providing, the entry of B is
    returned. *)
Theorem GetLatestChannelEntriesThatProvide_spec s g v k :
  ((forall e, ~ provides_api (db s) g v k e) ->
   GetLatestChannelEntriesThatProvide s g v k
   = ([], Some (provide_not_found g v k)))
  /\ ((exists e, provides_api (db s) g v k e) ->
      exists reps : list provider_join,
        GetLatestChannelEntriesThatProvide s g v k
        = (map (fun j => scan_provide (provide_columns j)) reps, None)
        /\ NoDup (map entry_key reps)
        /\ (forall e, provides_api (db s) g v k e ->
                      exists j, In j reps /\ entry_key j = channel_of e)
        /\ (forall j, In j reps ->
                      provides_api (db s) g v k (fst (fst j))
                      /\ shallowest (provides_api (db s) g v k)
                                    (fst (fst j))))
  /\ GetLatestChannelEntriesThatProvide {| db := chain_db |} "g" "v" "k"
     = ([{| ChannelEntry.PackageName := "P"; ChannelEntry.ChannelName := "Ch";
            ChannelEntry.BundleName := "B"; ChannelEntry.Replaces := "C" |}],
        None).
Proof.
  split; [|split; [|reflexivity]].
  - intros Hno. rewrite Latest_result.
    rewrite (nil_when_no_member (providers (db s) g v k)); [reflexivity|].
    intros j Hj. exact (Hno _ (providers_entry _ _ _ _ _ Hj)).
  - intros [e0 He0]. rewrite Latest_result.
    destruct (providers_of_entry He0) as [j0 [Hj0 _]].
    set (rows := providers (db s) g v k) in *.
    set (lat := Sql.group_min key_dec entry_key provider_depth rows).
    exists (map fst lat). split; [|split; [|split]].
    + rewrite map_map. fold lat.
      destruct rows; [destruct Hj0 | reflexivity].
    + rewrite map_map. unfold lat. rewrite AggFacts.group_min_keys.
      apply SqlFacts.NoDup_distinct.
    + intros e He. destruct (providers_of_entry He) as [j [Hj Hfst]].
      destruct (AggFacts.group_min_covers key_dec entry_key provider_depth
                  rows j Hj) as [x [Hx Hkey]].
      exists x. split.
      * apply in_map_iff. exists (x, provider_depth x). auto.
      * rewrite Hkey. unfold entry_key, channel_of. rewrite Hfst.
        reflexivity.
    + intros j Hj. apply in_map_iff in Hj. destruct Hj as [[x m] [<- Hx]].
      simpl. apply AggFacts.group_min_In in Hx.
      destruct Hx as [Hin [_ Hmin]]. split.
      * apply providers_entry. exact Hin.
      * intros e' d He' Hch Hd.
        destruct (providers_of_entry He') as [j' [Hj' Hfst]].
        apply (Hmin j' d Hj').
        -- unfold entry_key. rewrite Hfst. exact Hch.
        -- unfold provider_depth. rewrite Hfst. exact Hd.
Qed.

Lemma GetLatestChannelEntriesThatProvide_spec_witness :
  (exists e, provides_api chain_db "g" "v" "k" e)
  /\ exists reps : list provider_join,
      GetLatestChannelEntriesThatProvide {| db := chain_db |} "g" "v" "k"
      = (map (fun j => scan_provide (provide_columns j)) reps, None)
      /\ NoDup (map entry_key reps).
Proof.
  assert (H : exists e, provides_api chain_db "g" "v" "k" e).
  { exists (entry 4 "Ch" "P" "C" None 3). split; [left; reflexivity|].
    exists (provides "g" "v" "k" 4). repeat split; simpl; auto. }
  split; [exact H|].
  destruct (GetLatestChannelEntriesThatProvide_spec
              {| db := chain_db |} "g" "v" "k") as [_ [Hsome _]].
  destruct (Hsome H) as [reps [E [Hnd _]]].
  exists reps. split; assumption.
Defined.

(** ** GetBundleThatProvides *)

Lemma default_providers_In d g v k e a b p :
  In (e, a, b, p) (default_providers d g v k)
  <-> In e (channel_entry d) /\ In a (api_provider d)
      /\ In b (operatorbundle d) /\ In p (package d)
      /\ Sql.eq_int (entry_id e) (provider_channel_entry_id a) = true
      /\ Sql.eq_text (operatorbundle_name b) (entry_operatorbundle_name e)
         = true
      /\ Sql.eq_text (package_name p) (entry_package_name e) = true
      /\ provider_groupOrName a = Some g
      /\ provider_version a = Some v
      /\ provider_kind a = Some k
      /\ Sql.eq_text (package_default_channel p) (entry_channel_name e)
         = true.
Proof.
  unfold default_providers. rewrite filter_In.
  rewrite !SqlFacts.in_inner_join.
  unfold dj_provider, dj_package, dj_entry. simpl.
  rewrite !andb_true_iff, !SqlFacts.is_text_true. tauto.
Qed.

Lemma default_providers_candidate d g v k j :
  In j (default_providers d g v k) ->
  default_provider d g v k (dj_entry j) (dj_package j)
  /\ bundle_of d (dj_entry j) (dj_bundle j).
Proof.
  destruct j as [[[e a] b] p]. rewrite default_providers_In.
  unfold default_provider, bundle_of, provides_api, dj_entry, dj_package,
    dj_bundle. simpl.
  intros H. repeat split; try tauto. exists a. tauto.
Qed.

Lemma candidate_default_providers d g v k e p b :
  default_provider d g v k e p -> bundle_of d e b ->
  exists a, In (e, a, b, p) (default_providers d g v k).
Proof.
  intros [[He [a Ha]] Hp] Hb. exists a.
  apply default_providers_In. unfold bundle_of in Hb. tauto.
Qed.

(** The call reads the first row of the query, which is the row [MIN]
    selects in the group of the first joined row. *)
Lemma BundleThatProvides_result s g v k :
  (default_providers (db s) g v k = []
   /\ GetBundleThatProvides s g v k
      = (EmptyString, Some (bundle_not_found g v k)))
  \/ (exists j rest,
        GetBundleThatProvides_query (db s) g v k
        = (operatorbundle_bundle (dj_bundle j), dj_depth j) :: rest
        /\ In j (default_providers (db s) g v k)
        /\ (forall j' d, In j' (default_providers (db s) g v k) ->
                         dj_key j' = dj_key j -> dj_depth j' = Some d ->
                         exists b, dj_depth j = Some b /\ (b <= d)%Z)
        /\ GetBundleThatProvides s g v k
           = match operatorbundle_bundle (dj_bundle j) with
             | Some payload => (payload, None)
             | None => (EmptyString, Some (bundle_not_found g v k))
             end).
Proof.
  unfold GetBundleThatProvides, GetBundleThatProvides_query, default_latest.
  destruct (default_providers (db s) g v k) as [|j1 rows] eqn:P.
  - left. split; reflexivity.
  - right.
    destruct (AggFacts.group_min_first key_dec dj_key dj_depth j1 rows)
      as [x [rest [E Hkey]]].
    assert (Hin : In (x, dj_depth x)
                     (Sql.group_min key_dec dj_key dj_depth (j1 :: rows))).
    { rewrite E. left; reflexivity. }
    apply AggFacts.group_min_In in Hin. destruct Hin as [Hx [_ Hmin]].
    rewrite E. simpl map. rewrite SqlFacts.distinct_cons.
    exists x. eexists. split; [reflexivity|]. split; [exact Hx|].
    split; [exact Hmin|]. simpl.
    destruct (operatorbundle_bundle (dj_bundle x)); reflexivity.
Qed.

(** C1: GetBundleThatProvides answers with the first row of its query.
    That row comes from an entry that provides the API in the default
    channel of its package and has a bundle row, and that no such entry of
    the same (package, channel) undercuts in depth; the payload of the
    bundle row is returned.  Without any default-channel provider the call
    fails with the "not found" error.  In the etcd catalog the payload of
    etcd.v1.0.0 is returned, and still is once etcd.v0.9.0 has been added at
    depth 1 with the same API, wherever its rows are stored. *)
Theorem GetBundleThatProvides_spec s g v k :
  ((forall e p, ~ default_provider (db s) g v k e p) ->
   GetBundleThatProvides s g v k
   = (EmptyString, Some (bundle_not_found g v k)))
  /\ ((exists e, default_candidate (db s) g v k e) ->
      exists e b rest,
        default_candidate (db s) g v k e
        /\ bundle_of (db s) e b
        /\ shallowest (default_candidate (db s) g v k) e
        /\ GetBundleThatProvides_query (db s) g v k
           = (operatorbundle_bundle b, entry_depth e) :: rest
        /\ GetBundleThatProvides s g v k
           = match operatorbundle_bundle b with
             | Some payload => (payload, None)
             | None => (EmptyString, Some (bundle_not_found g v k))
             end)
  /\ (forall payload1 payload0 first,
        GetBundleThatProvides (etcd_querier (Some payload1))
          "etcd.database.coreos.com" "v1" "EtcdCluster"
        = (payload1, None)
        /\ GetBundleThatProvides (etcd_querier2 first (Some payload1) payload0)
             "etcd.database.coreos.com" "v1" "EtcdCluster"
           = (payload1, None)).
Proof.
  split; [|split].
  - intros Hno.
    destruct (BundleThatProvides_result s g v k)
      as [[_ E]|[j [rest [_ [Hj _]]]]]; [exact E|].
    apply default_providers_candidate in Hj. destruct Hj as [Hj _].
    destruct (Hno _ _ Hj).
  - intros [e0 [p0 [b0 [Hp0 Hb0]]]].
    destruct (candidate_default_providers Hp0 Hb0) as [a0 Hin0].
    destruct (BundleThatProvides_result s g v k)
      as [[E _]|[j [rest [Q [Hj [Hmin R]]]]]].
    { rewrite E in Hin0. destruct Hin0. }
    destruct (default_providers_candidate _ _ _ _ _ Hj) as [Hp Hb].
    exists (dj_entry j), (dj_bundle j), rest.
    split; [exists (dj_package j), (dj_bundle j); auto|].
    split; [exact Hb|]. split; [|split; [exact Q | exact R]].
    intros e' d [p' [b' [Hp' Hb']]] Hch Hd.
    destruct (candidate_default_providers Hp' Hb') as [a' Hin'].
    apply (Hmin _ d Hin'); assumption.
  - intros payload1 payload0 first. split; [reflexivity|].
    destruct first; reflexivity.
Qed.

Lemma GetBundleThatProvides_spec_witness :
  let d := etcd_db2 false (Some "v1.0.0 manifest"%string)
                          (Some "v0.9.0 manifest"%string) in
  (exists e,
      default_candidate d "etcd.database.coreos.com" "v1" "EtcdCluster" e)
  /\ exists e b,
      bundle_of d e b
      /\ shallowest (default_candidate d "etcd.database.coreos.com" "v1"
                                       "EtcdCluster") e
      /\ GetBundleThatProvides {| db := d |}
           "etcd.database.coreos.com" "v1" "EtcdCluster"
         = match operatorbundle_bundle b with
           | Some payload => (payload, None)
           | None => (EmptyString,
                      Some (bundle_not_found "etcd.database.coreos.com" "v1"
                                             "EtcdCluster"))
           end.
Proof.
  intros d.
  assert (H : exists e,
             default_candidate d "etcd.database.coreos.com" "v1"
                               "EtcdCluster" e).
  { exists (entry 2 "alpha" "etcd" "etcd.v0.9.0" None 1), etcd_package,
           {| operatorbundle_name := Some "etcd.v0.9.0"%string;
              operatorbundle_bundle := Some "v0.9.0 manifest"%string |}.
    split; [split; [split|]|].
    - right; left; reflexivity.
    - exists (etcd_api 2). repeat split. right; left; reflexivity.
    - repeat split. left; reflexivity.
    - split; [right; left; reflexivity | reflexivity]. }
  split; [exact H|].
  destruct (GetBundleThatProvides_spec {| db := d |}
              "etcd.database.coreos.com" "v1" "EtcdCluster")
    as [_ [Hsome _]].
  destruct (Hsome H) as [e [b [rest [_ [Hb [Hmin [_ E]]]]]]].
  exists e, b. auto.
Defined.

(** ** Null columns *)

Lemma null_decodes_in_rows_holds s : null_decodes_in_rows s.
Proof.
  unfold null_decodes_in_rows. repeat split.
  - intros name [[[pn dc] cn] bn] rest Q. unfold GetPackage. rewrite Q.
    destruct rest as [|[[[pn' dc'] cn'] bn'] rest]; reflexivity.
  - intros pkgName channelName v rest Q. unfold GetBundleForChannel.
    rewrite Q. reflexivity.
  - intros name v rest Q. unfold GetBundleForName. rewrite Q. reflexivity.
  - intros name r rest Q. rewrite Replace_result, Q.
    apply (f_equal (fun l => (l, @None error))). apply map_ext.
    intros [[pn cn] bn]. reflexivity.
  - intros name pkgName channelName v rest Q. unfold GetBundleThatReplaces.
    rewrite Q. reflexivity.
  - intros g v k r rest Q. unfold GetChannelEntriesThatProvide.
    rewrite ScanFacts.Provide_scan_cursor, Q.
    apply (f_equal (fun l => (l, @None error))). apply map_ext.
    intros [[[pn cn] bn] rn]. reflexivity.
  - intros g v k r rest Q. unfold GetLatestChannelEntriesThatProvide.
    rewrite ScanFacts.Latest_scan_cursor, Q.
    apply (f_equal (fun l => (l, @None error))). apply map_ext.
    intros [[[[pn cn] bn] rn] m]. reflexivity.
Qed.

(** C5, as stated, fails on the etcd catalog when the payload of
    etcd.v1.0.0 is NULL: the query has its row, and the call fails. *)
Lemma null_payload_fails : ~ null_decodes_to_empty (etcd_querier None).
Proof.
  intros [_ [_ H]].
  specialize (H "etcd.database.coreos.com" "v1" "EtcdCluster"
                None (Some 0%Z) [] eq_refl)%string.
  vm_compute in H. discriminate.
Qed.

(** A package row without name is left out of the list. *)
Example ListPackages_skips_null :
  ListPackages_query nameless_package_db = [None; Some "etcd"%string]
  /\ ListPackages {| db := nameless_package_db |} = (["etcd"%string], None).
Proof. split; reflexivity. Qed.

(** C5, amended: a NULL text column of a matched row is read as the empty
    string and the operation succeeds, in the seven operations other than
    ListPackages and GetBundleThatProvides.  ListPackages never fails and
    lists the names that are not NULL.  GetBundleThatProvides returns the
    payload of the first row of its query and fails with its "not found"
    error when that payload is NULL. *)
Theorem null_columns s :
  decode None = EmptyString
  /\ ListPackages s
     = (flat_map (fun v : option string =>
                    match v with Some n => [n] | None => [] end)
                 (ListPackages_query (db s)), None)
  /\ null_decodes_in_rows s
  /\ (forall g v k b m rest,
        GetBundleThatProvides_query (db s) g v k = (b, m) :: rest ->
        GetBundleThatProvides s g v k
        = match b with
          | Some payload => (payload, None)
          | None => (EmptyString, Some (bundle_not_found g v k))
          end).
Proof.
  split; [reflexivity|]. split; [|split].
  - unfold ListPackages. rewrite ScanFacts.ListPackages_scan_cursor.
    reflexivity.
  - apply null_decodes_in_rows_holds.
  - intros g v k b m rest Q. unfold GetBundleThatProvides. rewrite Q.
    destruct b; reflexivity.
Qed.

Lemma null_columns_witness :
  GetBundleThatProvides_query (etcd_db None)
    "etcd.database.coreos.com" "v1" "EtcdCluster" = [(None, Some 0%Z)]
  /\ GetBundleThatProvides (etcd_querier None)
       "etcd.database.coreos.com" "v1" "EtcdCluster"
     = (EmptyString,
        Some (bundle_not_found "etcd.database.coreos.com" "v1"
                               "EtcdCluster")).
Proof.
  split; [reflexivity|].
  destruct (null_columns (etcd_querier None)) as [_ [_ [_ H]]].
  apply (H "etcd.database.coreos.com" "v1" "EtcdCluster"
           None (Some 0%Z) [])%string.
  reflexivity.
Defined.

(** * Further properties of the operations *)

(** ** ListPackages *)

Lemma in_present l n : In n (present l) <-> In (Some n) l.
Proof.
  unfold present. rewrite in_flat_map. split.
  - intros [[m|] [Hin Hn]]; [|destruct Hn].
    destruct Hn as [->|[]]. assumption.
  - intros H. exists (Some n). split; [assumption | left; reflexivity].
Qed.

Lemma NoDup_present l : NoDup l -> NoDup (present l).
Proof.
  induction 1 as [|[n|] l Hn ND IH]; simpl.
  - constructor.
  - constructor; [|exact IH]. rewrite in_present. exact Hn.
  - exact IH.
Qed.

Lemma ListPackages_result s :
  ListPackages s = (present (ListPackages_query (db s)), None).
Proof. unfold ListPackages. apply ScanFacts.ListPackages_scan_cursor. Qed.

Lemma ListPackages_In s n :
  In n (fst (ListPackages s))
  <-> exists p, In p (package (db s)) /\ package_name p = Some n.
Proof.
  rewrite ListPackages_result. simpl. rewrite in_present.
  unfold ListPackages_query. rewrite SqlFacts.in_distinct, in_map_iff.
  split; intros [p [H1 H2]]; exists p; auto.
Qed.

(** X1: ListPackages never fails; it lists each name of the package table
    once, and a string is listed exactly when a package row has it as its
    name (rows whose name is NULL contribute nothing). *)
Theorem ListPackages_distinct_names s :
  exists names,
    ListPackages s = (names, None)
    /\ NoDup names
    /\ forall n, In n names
                 <-> exists p, In p (package (db s))
                               /\ package_name p = Some n.
Proof.
  exists (present (ListPackages_query (db s))).
  split; [apply ListPackages_result|]. split.
  - apply NoDup_present, SqlFacts.NoDup_distinct.
  - intros n. rewrite <- ListPackages_In, ListPackages_result. reflexivity.
Qed.

Lemma ListPackages_scan_error pre e post acc :
  ListPackages_scan (cursor pre ++ ScanErr e :: post) acc = ([], Some e).
Proof.
  revert acc; induction pre as [|[n|] pre IH]; intros acc; simpl;
    [reflexivity | apply IH | apply IH].
Qed.

(** X2: the loop of ListPackages over any cursor: when a [Scan] fails the
    result is no name at all and the error of the first failing row,
    whatever was scanned before; a result without error means that every
    row was scanned and holds the names that are not NULL, in cursor
    order. *)
Theorem ListPackages_scan_all_or_nothing (rows : Rows (option string)) :
  ((exists e, In (ScanErr e) rows) ->
   exists pre e post,
     rows = cursor pre ++ ScanErr e :: post
     /\ ListPackages_scan rows [] = ([], Some e))
  /\ (forall names,
        ListPackages_scan rows [] = (names, None) ->
        exists rs, rows = cursor rs /\ names = present rs).
Proof.
  split.
  - intros [e He].
    destruct (ScanFacts.cursor_split rows) as [[rs ->]|[pre [e' [post ->]]]].
    + destruct (ScanFacts.cursor_no_error _ _ He).
    + exists pre, e', post. split; [reflexivity|].
      apply ListPackages_scan_error.
  - intros names E.
    destruct (ScanFacts.cursor_split rows) as [[rs ->]|[pre [e' [post ->]]]].
    + exists rs. split; [reflexivity|].
      rewrite ScanFacts.ListPackages_scan_cursor in E.
      inversion E. reflexivity.
    + rewrite ListPackages_scan_error in E. discriminate.
Qed.

Lemma ListPackages_scan_all_or_nothing_witness :
  let rows : Rows (option string) :=
    broken_cursor (Some "etcd"%string) (Some "prometheus"%string) in
  (exists e, In (ScanErr e) rows)
  /\ exists e, ListPackages_scan rows [] = ([], Some e).
Proof.
  intros rows.
  assert (H : exists e, In (ScanErr e) rows).
  { eexists. right; left; reflexivity. }
  split; [exact H|].
  destruct (ListPackages_scan_all_or_nothing rows) as [Hfail _].
  destruct (Hfail H) as [pre [e [post [_ E]]]].
  exists e. exact E.
Defined.

(** ** GetBundleForName *)

Lemma BundleForName_result s name :
  GetBundleForName s name
  = match filter (fun b => Sql.is_text (operatorbundle_name b) name)
                 (operatorbundle (db s)) with
    | [] => (EmptyString, Some (NotFound ("no bundle found named " ++ name)))
    | b :: _ =>
        (NullString.String (NullString.Scan (operatorbundle_bundle b)), None)
    end.
Proof.
  unfold GetBundleForName, GetBundleForName_query.
  rewrite limit_one_distinct.
  destruct (filter _ (operatorbundle (db s))); reflexivity.
Qed.

Lemma in_named d name b :
  In b (filter (fun b => Sql.is_text (operatorbundle_name b) name)
               (operatorbundle d))
  <-> bundle_named d name b.
Proof.
  unfold bundle_named. rewrite filter_In, SqlFacts.is_text_true. tauto.
Qed.

(** X3: GetBundleForName fails with its "not found" error exactly when no
    bundle row has the name; otherwise it returns the payload of a bundle
    row with that name, a NULL payload being returned as the empty string
    without error.  When bundle names are unique, the payload stored under
    the name is the one returned. *)
Theorem GetBundleForName_lookup s name :
  ((forall b, ~ bundle_named (db s) name b) ->
   GetBundleForName s name
   = (EmptyString, Some (NotFound ("no bundle found named " ++ name))))
  /\ ((exists b, bundle_named (db s) name b) ->
      exists b, bundle_named (db s) name b
                /\ GetBundleForName s name
                   = (NullString.String
                        (NullString.Scan (operatorbundle_bundle b)), None))
  /\ (forall b, unique_bundle_names (db s) -> bundle_named (db s) name b ->
                GetBundleForName s name
                = (NullString.String
                     (NullString.Scan (operatorbundle_bundle b)), None)).
Proof.
  assert (Hsome : (exists b, bundle_named (db s) name b) ->
                  exists b, bundle_named (db s) name b
                            /\ GetBundleForName s name
                               = (NullString.String
                                    (NullString.Scan
                                       (operatorbundle_bundle b)), None)).
  { intros [b0 Hb0]. rewrite BundleForName_result.
    apply in_named in Hb0.
    destruct (filter _ (operatorbundle (db s))) as [|b rest] eqn:F;
      [destruct Hb0|].
    exists b. split; [|reflexivity].
    apply in_named. rewrite F. left; reflexivity. }
  split; [|split; [exact Hsome|]].
  - intros Hno. rewrite BundleForName_result.
    rewrite (nil_when_no_member (filter _ (operatorbundle (db s))));
      [reflexivity|].
    intros b Hb. apply in_named in Hb. exact (Hno b Hb).
  - intros b Huniq Hb. destruct Hsome as [b' [Hb' E]]; [eauto|].
    rewrite (Huniq b b' name Hb Hb'). exact E.
Qed.

Lemma GetBundleForName_lookup_witness :
  unique_bundle_names two_channel_db
  /\ GetBundleForName {| db := two_channel_db |} "etcd.v0.9.0"
     = ("v0.9.0 manifest"%string, None).
Proof.
  assert (U : unique_bundle_names two_channel_db).
  { intros b b' n [Hb Hn] [Hb' Hn'].
    simpl in Hb, Hb'.
    destruct Hb as [<-|[<-|[]]]; destruct Hb' as [<-|[<-|[]]];
      simpl in Hn, Hn'; congruence. }
  split; [exact U|].
  destruct (GetBundleForName_lookup {| db := two_channel_db |} "etcd.v0.9.0")
    as [_ [_ H]].
  apply (H {| operatorbundle_name := Some "etcd.v0.9.0"%string;
              operatorbundle_bundle := Some "v0.9.0 manifest"%string |} U).
  split; [right; left; reflexivity | reflexivity].
Defined.

(** ** GetBundleForChannel *)

Lemma BundleForChannel_result s pkgName channelName :
  GetBundleForChannel s pkgName channelName
  = match channel_bundle_join (db s) pkgName channelName with
    | [] => (EmptyString,
             Some (NotFound ("no bundle found for " ++ pkgName ++ " "
                             ++ channelName)))
    | cb :: _ =>
        (NullString.String
           (NullString.Scan (operatorbundle_bundle (snd cb))), None)
    end.
Proof.
  unfold GetBundleForChannel, GetBundleForChannel_query.
  rewrite limit_one_distinct. fold (channel_bundle_join (db s) pkgName
                                                        channelName).
  destruct (channel_bundle_join (db s) pkgName channelName); reflexivity.
Qed.

Lemma channel_bundle_join_In d pkgName channelName c b :
  In (c, b) (channel_bundle_join d pkgName channelName)
  <-> channel_row_of d pkgName channelName c /\ head_bundle d c b.
Proof.
  unfold channel_bundle_join, channel_row_of, head_bundle.
  rewrite filter_In, SqlFacts.in_inner_join. simpl.
  rewrite andb_true_iff, !SqlFacts.is_text_true. tauto.
Qed.

(** X4: GetBundleForChannel returns the payload (NULL read as the empty
    string) of a bundle row named as the head of a row of the channel; it
    fails with its "not found" error when the channel has no row, and also
    when it has one but no bundle row carries the head's name. *)
Theorem GetBundleForChannel_head s pkgName channelName :
  ((forall c b, ~ (channel_row_of (db s) pkgName channelName c
                   /\ head_bundle (db s) c b)) ->
   GetBundleForChannel s pkgName channelName
   = (EmptyString,
      Some (NotFound ("no bundle found for " ++ pkgName ++ " "
                      ++ channelName))))
  /\ ((exists c b, channel_row_of (db s) pkgName channelName c
                   /\ head_bundle (db s) c b) ->
      exists c b,
        channel_row_of (db s) pkgName channelName c
        /\ head_bundle (db s) c b
        /\ GetBundleForChannel s pkgName channelName
           = (NullString.String
                (NullString.Scan (operatorbundle_bundle b)), None)).
Proof.
  split.
  - intros Hno. rewrite BundleForChannel_result.
    rewrite (nil_when_no_member
               (channel_bundle_join (db s) pkgName channelName));
      [reflexivity|].
    intros [c b] H. apply channel_bundle_join_In in H. exact (Hno c b H).
  - intros [c0 [b0 H0]]. apply channel_bundle_join_In in H0.
    rewrite BundleForChannel_result.
    destruct (channel_bundle_join (db s) pkgName channelName)
      as [|[c b] rest] eqn:J; [destruct H0|].
    assert (Hin : In (c, b) (channel_bundle_join (db s) pkgName channelName)).
    { rewrite J. left; reflexivity. }
    apply channel_bundle_join_In in Hin. exists c, b. tauto.
Qed.

Lemma GetBundleForChannel_head_witness :
  (exists c b, channel_row_of two_channel_db "etcd" "beta" c
               /\ head_bundle two_channel_db c b)
  /\ exists payload,
      GetBundleForChannel {| db := two_channel_db |} "etcd" "beta"
      = (payload, None).
Proof.
  assert (H : exists c b, channel_row_of two_channel_db "etcd" "beta" c
                          /\ head_bundle two_channel_db c b).
  { exists etcd_beta,
           {| operatorbundle_name := Some "etcd.v0.9.0"%string;
              operatorbundle_bundle := Some "v0.9.0 manifest"%string |}.
    split; [split; [right; left; reflexivity | split; reflexivity]|].
    split; [right; left; reflexivity | reflexivity]. }
  split; [exact H|].
  destruct (GetBundleForChannel_head {| db := two_channel_db |} "etcd" "beta")
    as [_ Hsome].
  destruct (Hsome H) as [c [b [_ [_ E]]]]. eexists. exact E.
Defined.

(** ** GetBundleForChannel and GetBundleForName *)

(** X5: with unique bundle names, when the channel has a row and its rows
    all name the same head [h], GetBundleForChannel returns what
    GetBundleForName returns for [h] and succeeds exactly when that lookup
    succeeds (the two error messages differ). *)
Theorem GetBundleForChannel_as_lookup s pkgName channelName h :
  unique_bundle_names (db s) ->
  (exists c, channel_row_of (db s) pkgName channelName c) ->
  (forall c, channel_row_of (db s) pkgName channelName c ->
             channel_head_operatorbundle_name c = Some h) ->
  fst (GetBundleForChannel s pkgName channelName)
  = fst (GetBundleForName s h)
  /\ (snd (GetBundleForChannel s pkgName channelName) = None
      <-> snd (GetBundleForName s h) = None).
Proof.
  intros Huniq [c0 Hc0] Hhead.
  assert (Hjoin : forall c b,
             In (c, b) (channel_bundle_join (db s) pkgName channelName) ->
             bundle_named (db s) h b).
  { intros c b Hcb. apply channel_bundle_join_In in Hcb.
    destruct Hcb as [Hc [Hb Hon]]. rewrite (Hhead c Hc) in Hon.
    apply SqlFacts.eq_text_true in Hon. destruct Hon as [n [Hh Hn]].
    inversion Hh; subst n. split; assumption. }
  rewrite BundleForChannel_result, BundleForName_result.
  destruct (filter (fun b => Sql.is_text (operatorbundle_name b) h)
                   (operatorbundle (db s))) as [|b bs] eqn:F.
  - destruct (channel_bundle_join (db s) pkgName channelName)
      as [|[c b'] J] eqn:EJ.
    + simpl. split; [reflexivity|]. split; discriminate.
    + assert (Hb' : bundle_named (db s) h b').
      { apply (Hjoin c). left; reflexivity. }
      apply in_named in Hb'. rewrite F in Hb'. destruct Hb'.
  - assert (Hb : bundle_named (db s) h b).
    { apply in_named. rewrite F. left; reflexivity. }
    destruct (channel_bundle_join (db s) pkgName channelName)
      as [|[c b'] J] eqn:EJ.
    + assert (Hin : In (c0, b)
                       (channel_bundle_join (db s) pkgName channelName)).
      { apply channel_bundle_join_In. split; [exact Hc0|].
        destruct Hb as [Hb Hn]. split; [exact Hb|].
        rewrite (Hhead c0 Hc0), Hn. apply SqlFacts.eq_text_true. eauto. }
      rewrite EJ in Hin. destruct Hin.
    + assert (Hb' : bundle_named (db s) h b').
      { apply (Hjoin c). left; reflexivity. }
      rewrite (Huniq b' b h Hb' Hb). simpl.
      split; [reflexivity|]. tauto.
Qed.

Lemma GetBundleForChannel_as_lookup_witness :
  unique_bundle_names two_channel_db
  /\ (exists c, channel_row_of two_channel_db "etcd" "beta" c)
  /\ fst (GetBundleForChannel {| db := two_channel_db |} "etcd" "beta")
     = fst (GetBundleForName {| db := two_channel_db |} "etcd.v0.9.0").
Proof.
  assert (U : unique_bundle_names two_channel_db).
  { intros b b' n [Hb Hn] [Hb' Hn'].
    simpl in Hb, Hb'.
    destruct Hb as [<-|[<-|[]]]; destruct Hb' as [<-|[<-|[]]];
      simpl in Hn, Hn'; congruence. }
  assert (H : exists c, channel_row_of two_channel_db "etcd" "beta" c).
  { exists etcd_beta. split; [right; left; reflexivity | split; reflexivity]. }
  split; [exact U|]. split; [exact H|].
  apply (@GetBundleForChannel_as_lookup {| db := two_channel_db |}
           "etcd" "beta" "etcd.v0.9.0" U H).
  intros c [Hc [_ Hn]]. simpl in Hc.
  destruct Hc as [<-|[<-|[]]]; [discriminate | reflexivity].
Defined.

(** ** GetChannelEntriesThatProvide *)

Lemma providers_In d g v k e a o :
  In (e, a, o) (providers d g v k)
  <-> In e (channel_entry d) /\ In a (api_provider d)
      /\ Sql.eq_int (entry_id e) (provider_channel_entry_id a) = true
      /\ provider_groupOrName a = Some g
      /\ provider_version a = Some v
      /\ provider_kind a = Some k
      /\ replaces_partner d e o.
Proof.
  unfold providers. rewrite filter_In. simpl.
  rewrite !andb_true_iff, !SqlFacts.is_text_true.
  destruct o as [r|]; simpl.
  - rewrite SqlFacts.in_left_outer_join_some, SqlFacts.in_inner_join.
    simpl. tauto.
  - rewrite SqlFacts.in_left_outer_join_none, SqlFacts.in_inner_join.
    simpl. tauto.
Qed.

Lemma Provide_result s g v k :
  GetChannelEntriesThatProvide s g v k
  = match providers (db s) g v k with
    | [] => ([], Some (provide_not_found g v k))
    | rows =>
        (map scan_provide
             (Sql.distinct row4_dec (map provide_columns rows)), None)
    end.
Proof.
  unfold GetChannelEntriesThatProvide, GetChannelEntriesThatProvide_query.
  rewrite ScanFacts.Provide_scan_cursor. simpl.
  destruct (providers (db s) g v k) as [|j rows]; reflexivity.
Qed.

Lemma Provide_entries_In s g v k t :
  In t (fst (GetChannelEntriesThatProvide s g v k))
  <-> exists j, In j (providers (db s) g v k)
                /\ t = scan_provide (provide_columns j).
Proof.
  rewrite Provide_result.
  destruct (providers (db s) g v k) as [|j0 rows] eqn:P.
  - simpl. split; [intros [] | intros [j [[] _]]].
  - unfold fst. rewrite in_map_iff. split.
    + intros [row [<- Hrow]]. apply SqlFacts.in_distinct in Hrow.
      apply in_map_iff in Hrow. destruct Hrow as [j [<- Hj]].
      exists j. auto.
    + intros [j [Hj ->]]. exists (provide_columns j). split; [reflexivity|].
      apply SqlFacts.in_distinct. apply in_map. exact Hj.
Qed.

(** X6: GetChannelEntriesThatProvide fails with its "not found" error
    exactly when no entry provides the API.  Otherwise an entry is returned
    exactly when it is the (package, channel, bundle) of a providing entry,
    its Replaces field being the bundle name of an entry the provider
    replaces, or the empty string when it replaces none; NULL columns are
    read as the empty string. *)
Theorem GetChannelEntriesThatProvide_members s g v k :
  ((forall e, ~ provides_api (db s) g v k e) ->
   GetChannelEntriesThatProvide s g v k
   = ([], Some (provide_not_found g v k)))
  /\ ((exists e, provides_api (db s) g v k e) ->
      exists entries,
        GetChannelEntriesThatProvide s g v k = (entries, None)
        /\ entries <> []
        /\ forall t,
            In t entries
            <-> exists e o,
                provides_api (db s) g v k e
                /\ replaces_partner (db s) e o
                /\ t = scan_provide
                         (entry_package_name e, entry_channel_name e,
                          entry_operatorbundle_name e,
                          outer entry_operatorbundle_name o)).
Proof.
  split.
  - intros Hno. rewrite Provide_result.
    rewrite (nil_when_no_member (providers (db s) g v k)); [reflexivity|].
    intros j Hj. exact (Hno _ (providers_entry _ _ _ _ _ Hj)).
  - intros [e0 He0]. destruct (providers_of_entry He0) as [j0 [Hj0 _]].
    exists (fst (GetChannelEntriesThatProvide s g v k)).
    split; [|split].
    + rewrite Provide_result.
      destruct (providers (db s) g v k); [destruct Hj0 | reflexivity].
    + intros E.
      assert (Hin : In (scan_provide (provide_columns j0))
                       (fst (GetChannelEntriesThatProvide s g v k))).
      { apply Provide_entries_In. eauto. }
      rewrite E in Hin. exact Hin.
    + intros t. rewrite Provide_entries_In. split.
      * intros [[[e a] o] [Hj ->]]. exists e, o.
        pose proof (providers_entry _ _ _ _ _ Hj) as He.
        apply providers_In in Hj. simpl in He. tauto.
      * intros [e [o [[He [a Ha]] [Ho ->]]]]. exists (e, a, o).
        split; [|reflexivity]. apply providers_In. tauto.
Qed.

Lemma GetChannelEntriesThatProvide_members_witness :
  (exists e, provides_api chain_db "g" "v" "k" e)
  /\ exists entries,
      GetChannelEntriesThatProvide {| db := chain_db |} "g" "v" "k"
      = (entries, None)
      /\ entries <> [].
Proof.
  assert (H : exists e, provides_api chain_db "g" "v" "k" e).
  { exists (entry 4 "Ch" "P" "C" None 3). split; [left; reflexivity|].
    exists (provides "g" "v" "k" 4). repeat split; simpl; auto. }
  split; [exact H|].
  destruct (GetChannelEntriesThatProvide_members
              {| db := chain_db |} "g" "v" "k") as [_ Hsome].
  destruct (Hsome H) as [entries [E [Hne _]]].
  exists entries. split; assumption.
Defined.

(** X7: GetLatestChannelEntriesThatProvide and GetChannelEntriesThatProvide
    fail together, with the same error; every entry the first returns is
    among those the second returns, and it returns no more entries than the
    second. *)
Theorem latest_entries_among_all s g v k :
  snd (GetLatestChannelEntriesThatProvide s g v k)
  = snd (GetChannelEntriesThatProvide s g v k)
  /\ (forall t,
        In t (fst (GetLatestChannelEntriesThatProvide s g v k)) ->
        In t (fst (GetChannelEntriesThatProvide s g v k)))
  /\ List.length (fst (GetLatestChannelEntriesThatProvide s g v k))
     <= List.length (fst (GetChannelEntriesThatProvide s g v k)).
Proof.
  split; [|split].
  - rewrite Latest_result, Provide_result.
    destruct (providers (db s) g v k); reflexivity.
  - intros t. rewrite Provide_entries_In, Latest_result.
    destruct (providers (db s) g v k) as [|j0 rows] eqn:P; [intros []|].
    unfold fst. rewrite <- P. intros Ht. apply in_map_iff in Ht.
    destruct Ht as [[x m] [<- Hx]]. apply AggFacts.group_min_In in Hx.
    exists x. simpl. tauto.
  - rewrite Latest_result, Provide_result.
    destruct (providers (db s) g v k) as [|j0 rows] eqn:P; [simpl; lia|].
    unfold fst. rewrite <- P. rewrite !length_map.
    set (lat := Sql.group_min key_dec entry_key provider_depth
                  (providers (db s) g v k)).
    rewrite <- (length_map (fun jm : provider_join * option Z =>
                              provide_columns (fst jm)) lat).
    apply NoDup_incl_length.
    + apply (NoDup_map_inv
               (fun r : provide_row => (fst (fst (fst r)), snd (fst (fst r))))).
      rewrite map_map. simpl.
      change (NoDup (map (fun r : provider_join * option Z =>
                            entry_key (fst r)) lat)).
      unfold lat. rewrite AggFacts.group_min_keys.
      apply SqlFacts.NoDup_distinct.
    + intros row Hrow. apply in_map_iff in Hrow.
      destruct Hrow as [[x m] [<- Hx]]. apply AggFacts.group_min_In in Hx.
      apply SqlFacts.in_distinct. apply in_map. simpl. tauto.
Qed.

(** ** How the operations agree with each other *)

Lemma BundleForName_unique s name b :
  unique_bundle_names (db s) -> bundle_named (db s) name b ->
  GetBundleForName s name
  = (NullString.String (NullString.Scan (operatorbundle_bundle b)), None).
Proof.
  intros Huniq Hb. rewrite BundleForName_result.
  pose proof Hb as Hin. apply in_named in Hin.
  destruct (filter _ (operatorbundle (db s))) as [|b' rest] eqn:F;
    [destruct Hin|].
  assert (Hb' : bundle_named (db s) name b').
  { apply in_named. rewrite F. left; reflexivity. }
  rewrite (Huniq b b' name Hb Hb'). reflexivity.
Qed.

Lemma Replace_entries_In s name t :
  In t (fst (GetChannelEntriesThatReplace s name))
  <-> exists row, In row (GetChannelEntriesThatReplace_query (db s) name)
                  /\ t = scan_replace name row.
Proof.
  rewrite Replace_result.
  destruct (GetChannelEntriesThatReplace_query (db s) name)
    as [|row0 rows] eqn:Q.
  - simpl. split; [intros [] | intros [row [[] _]]].
  - unfold fst. rewrite in_map_iff. split.
    + intros [row [<- Hrow]]. eauto.
    + intros [row [Hrow ->]]. eauto.
Qed.

Lemma Replace_succeeds s name row :
  In row (GetChannelEntriesThatReplace_query (db s) name) ->
  snd (GetChannelEntriesThatReplace s name) = None.
Proof.
  intros Hrow. rewrite Replace_result.
  destruct (GetChannelEntriesThatReplace_query (db s) name);
    [destruct Hrow | reflexivity].
Qed.

Lemma eq_text_decode a b :
  Sql.eq_text a b = true ->
  exists n, a = Some n /\ b = Some n
            /\ NullString.String (NullString.Scan b) = n.
Proof.
  intros H. apply SqlFacts.eq_text_true in H. destruct H as [n [-> ->]].
  exists n. auto.
Qed.

(** X8: a payload returned by GetBundleThatProvides belongs to an entry
    that GetChannelEntriesThatProvide lists for the same API: the entry's
    channel is the default channel of its package, a bundle row named as
    the entry's bundle holds the payload, and with unique bundle names
    GetBundleForName returns the same payload for that bundle name. *)
Theorem provided_bundle_is_listed s g v k payload :
  GetBundleThatProvides s g v k = (payload, None) ->
  exists t,
    In t (fst (GetChannelEntriesThatProvide s g v k))
    /\ snd (GetChannelEntriesThatProvide s g v k) = None
    /\ (exists p, In p (package (db s))
                  /\ package_name p = Some (ChannelEntry.PackageName t)
                  /\ package_default_channel p
                     = Some (ChannelEntry.ChannelName t))
    /\ (exists b, bundle_named (db s) (ChannelEntry.BundleName t) b
                  /\ operatorbundle_bundle b = Some payload)
    /\ (unique_bundle_names (db s) ->
        GetBundleForName s (ChannelEntry.BundleName t) = (payload, None)).
Proof.
  intros E.
  destruct (BundleThatProvides_result s g v k)
    as [[_ R]|[[[[e a] b] p] [rest [_ [Hj [_ R]]]]]];
    rewrite R in E; [discriminate|].
  unfold dj_bundle in E. simpl in E.
  destruct (operatorbundle_bundle b) as [pl|] eqn:Hpl; [|discriminate].
  inversion E; subst pl.
  pose proof (default_providers_candidate _ _ _ _ _ Hj) as [[Hprov _] _].
  unfold dj_entry in Hprov. simpl in Hprov.
  apply default_providers_In in Hj.
  destruct Hj as [He [Ha [Hb [Hp [_ [Hbn [Hpn [_ [_ [_ Hdc]]]]]]]]]].
  destruct (providers_of_entry Hprov) as [[[e' a'] o] [Hj' Hfst]].
  simpl in Hfst. subst e'.
  destruct (eq_text_decode _ _ Hbn) as [bn [Hb1 [Hb2 Hb3]]].
  destruct (eq_text_decode _ _ Hpn) as [pn [Hp1 [Hp2 Hp3]]].
  destruct (eq_text_decode _ _ Hdc) as [cn [Hc1 [Hc2 Hc3]]].
  assert (Hnamed : bundle_named (db s) bn b) by (split; assumption).
  exists (scan_provide (provide_columns (e, a', o))).
  split; [apply Provide_entries_In; eauto|]. split.
  { rewrite Provide_result.
    destruct (providers (db s) g v k); [destruct Hj' | reflexivity]. }
  unfold provide_columns, scan_provide. simpl.
  rewrite Hb3, Hp3, Hc3. split; [exists p; auto|].
  split; [exists b; auto|].
  intros Huniq. rewrite (BundleForName_unique s Huniq Hnamed), Hpl.
  reflexivity.
Qed.

Lemma provided_bundle_is_listed_witness :
  GetBundleThatProvides (etcd_querier (Some "v1.0.0 manifest"%string))
    "etcd.database.coreos.com" "v1" "EtcdCluster"
  = ("v1.0.0 manifest"%string, None)
  /\ exists t,
      In t (fst (GetChannelEntriesThatProvide
                   (etcd_querier (Some "v1.0.0 manifest"%string))
                   "etcd.database.coreos.com" "v1" "EtcdCluster"))
      /\ exists b,
          bundle_named (etcd_db (Some "v1.0.0 manifest"%string))
                       (ChannelEntry.BundleName t) b
          /\ operatorbundle_bundle b = Some "v1.0.0 manifest"%string.
Proof.
  split; [reflexivity|].
  destruct (@provided_bundle_is_listed
              (etcd_querier (Some "v1.0.0 manifest"%string))
              "etcd.database.coreos.com" "v1" "EtcdCluster"
              "v1.0.0 manifest" eq_refl) as [t [Ht [_ [_ [Hb _]]]]].
  exists t. split; assumption.
Defined.

(** X9: a payload returned by GetBundleThatReplaces(name, package, channel)
    belongs to an entry that GetChannelEntriesThatReplace(name) lists: a
    bundle row named as that entry's bundle holds the payload, and with
    unique bundle names GetBundleForName returns the same payload for that
    bundle name. *)
Theorem replacing_bundle_is_listed s name pkgName channelName payload :
  GetBundleThatReplaces s name pkgName channelName = (payload, None) ->
  exists t,
    In t (fst (GetChannelEntriesThatReplace s name))
    /\ snd (GetChannelEntriesThatReplace s name) = None
    /\ ChannelEntry.Replaces t = name
    /\ (exists b, bundle_named (db s) (ChannelEntry.BundleName t) b
                  /\ NullString.String
                       (NullString.Scan (operatorbundle_bundle b))
                     = payload)
    /\ (unique_bundle_names (db s) ->
        GetBundleForName s (ChannelEntry.BundleName t) = (payload, None)).
Proof.
  unfold GetBundleThatReplaces. intros E.
  destruct (BundleThatReplaces_query_cases (db s) name pkgName channelName)
    as [[Q _]|[e [r [b [H Q]]]]]; rewrite Q in E; simpl in E;
    [discriminate|].
  inversion E as [Hpl]. clear E.
  destruct H as [He [Hr [Hb [Hn [_ [_ [Hrep Hbn]]]]]]].
  destruct (eq_text_decode _ _ Hbn) as [bn [Hb1 [Hb2 _]]].
  assert (Hnamed : bundle_named (db s) bn b) by (split; assumption).
  set (row := (entry_package_name r, entry_channel_name r,
               entry_operatorbundle_name r)).
  assert (Hrow : In row (GetChannelEntriesThatReplace_query (db s) name)).
  { apply Replace_query_In. exists r, e. unfold replaces_edge. auto. }
  exists (scan_replace name row).
  split; [apply Replace_entries_In; eauto|].
  split; [exact (Replace_succeeds s name row Hrow)|].
  unfold row, scan_replace. simpl. rewrite Hb1. simpl.
  split; [reflexivity|]. split; [exists b; auto|].
  intros Huniq. apply (BundleForName_unique s Huniq Hnamed).
Qed.

Lemma replacing_bundle_is_listed_witness :
  GetBundleThatReplaces {| db := chain_db |} "B" "P" "Ch"
  = ("payload-A"%string, None)
  /\ exists t,
      In t (fst (GetChannelEntriesThatReplace {| db := chain_db |} "B"))
      /\ ChannelEntry.Replaces t = "B"%string.
Proof.
  split; [reflexivity|].
  destruct (@replacing_bundle_is_listed {| db := chain_db |} "B" "P" "Ch"
              "payload-A" eq_refl) as [t [Ht [_ [Hr _]]]].
  exists t. split; assumption.
Defined.

(** X10: an entry that GetChannelEntriesThatProvide returns with a
    non-empty Replaces field is returned, as it is, by
    GetChannelEntriesThatReplace asked for that Replaces value. *)
Theorem listed_replaces_round_trip s g v k t :
  In t (fst (GetChannelEntriesThatProvide s g v k)) ->
  ChannelEntry.Replaces t <> EmptyString ->
  In t (fst (GetChannelEntriesThatReplace s (ChannelEntry.Replaces t)))
  /\ snd (GetChannelEntriesThatReplace s (ChannelEntry.Replaces t)) = None.
Proof.
  intros Ht Hne. apply Provide_entries_In in Ht.
  destruct Ht as [[[e a] o] [Hj ->]]. apply providers_In in Hj.
  destruct Hj as [He [_ [_ [_ [_ [_ Ho]]]]]].
  unfold provide_columns, scan_provide in *. simpl in *.
  destruct o as [r|]; [|contradiction Hne; reflexivity].
  simpl in *. destruct Ho as [Hr Hrep].
  destruct (entry_operatorbundle_name r) as [n|] eqn:Hn;
    [|contradiction Hne; reflexivity].
  simpl in *.
  set (row := (entry_package_name e, entry_channel_name e,
               entry_operatorbundle_name e)).
  assert (Hrow : In row (GetChannelEntriesThatReplace_query (db s) n)).
  { apply Replace_query_In. exists e, r. unfold replaces_edge. auto. }
  split; [|exact (Replace_succeeds s n row Hrow)].
  apply Replace_entries_In. exists row. split; [exact Hrow | reflexivity].
Qed.

Lemma listed_replaces_round_trip_witness :
  let t := {| ChannelEntry.PackageName := "P";
              ChannelEntry.ChannelName := "Ch";
              ChannelEntry.BundleName := "B";
              ChannelEntry.Replaces := "C" |}%string in
  In t (fst (GetChannelEntriesThatProvide {| db := chain_db |} "g" "v" "k"))
  /\ In t (fst (GetChannelEntriesThatReplace {| db := chain_db |} "C")).
Proof.
  intros t.
  assert (H : In t (fst (GetChannelEntriesThatProvide
                           {| db := chain_db |} "g" "v" "k"))).
  { right; left; reflexivity. }
  split; [exact H|].
  apply (@listed_replaces_round_trip {| db := chain_db |} "g" "v" "k" t H).
  discriminate.
Defined.

(** ** GetPackage, further *)

Lemma GetPackage_manifest s name r rest :
  GetPackage_query (db s) name = r :: rest ->
  GetPackage s name
  = (Some {| PackageName :=
               NullString.String (NullString.Scan (fst (fst (fst r))));
             DefaultChannelName :=
               NullString.String (NullString.Scan (snd (fst (fst r))));
             Channels := map scan_channel (firstn 2 (r :: rest)) |}, None).
Proof.
  unfold GetPackage. intros ->. destruct r as [[[pn dc] cn] bn].
  destruct rest as [|r' rest]; reflexivity.
Qed.

Lemma GetPackage_success s name m :
  GetPackage s name = (Some m, None) ->
  exists r rest,
    GetPackage_query (db s) name = r :: rest
    /\ m = {| PackageName :=
                NullString.String (NullString.Scan (fst (fst (fst r))));
              DefaultChannelName :=
                NullString.String (NullString.Scan (snd (fst (fst r))));
              Channels := map scan_channel (firstn 2 (r :: rest)) |}.
Proof.
  intros E. destruct (GetPackage_query (db s) name) as [|r rest] eqn:Q.
  - rewrite (GetPackage_no_row s name Q) in E. discriminate.
  - rewrite (GetPackage_manifest s name Q) in E. inversion E. eauto.
Qed.

Lemma in_firstn {A} n (l : list A) x : In x (firstn n l) -> In x l.
Proof.
  revert l; induction n as [|n IH]; intros [|y l]; simpl; try tauto.
  intros [->|H]; auto.
Qed.

(** X11: a manifest returned by GetPackage carries the queried name, the
    default channel of a package row with that name, and only channels that
    are channel rows of that package, each with its name and head bundle
    name (NULL read as the empty string). *)
Theorem GetPackage_manifest_content s name m :
  GetPackage s name = (Some m, None) ->
  PackageName m = name
  /\ (exists p, In p (package (db s)) /\ package_name p = Some name
                /\ DefaultChannelName m
                   = NullString.String
                       (NullString.Scan (package_default_channel p)))
  /\ (forall ch, In ch (Channels m) ->
                 exists c, In c (channel (db s))
                           /\ channel_package_name c = Some name
                           /\ ch = manifest_channel c).
Proof.
  intros E. destruct (GetPackage_success s name E) as [r [rest [Q ->]]].
  assert (Hr : In r (GetPackage_query (db s) name))
    by (rewrite Q; left; reflexivity).
  apply GetPackage_query_In in Hr.
  destruct Hr as [p [c [Hp [Hc [Hpn [Hcn ->]]]]]]. simpl.
  split; [rewrite Hpn; reflexivity|]. split; [exists p; auto|].
  intros ch Hch.
  change (In ch (map scan_channel
                     (firstn 2 ((package_name p, package_default_channel p,
                                 channel_name c,
                                 channel_head_operatorbundle_name c)
                                :: rest)))) in Hch.
  apply in_map_iff in Hch. destruct Hch as [r' [<- Hr']].
  apply in_firstn in Hr'.
  assert (Hq : In r' (GetPackage_query (db s) name))
    by (rewrite Q; exact Hr').
  clear Hr'. rename Hq into Hr'.
  apply GetPackage_query_In in Hr'.
  destruct Hr' as [p' [c' [_ [Hc' [_ [Hcn' ->]]]]]].
  exists c'. auto.
Qed.

Lemma GetPackage_manifest_content_witness :
  exists m,
    GetPackage {| db := two_channel_db |} "etcd" = (Some m, None)
    /\ PackageName m = "etcd"%string.
Proof.
  eexists. split; [reflexivity|].
  apply (@GetPackage_manifest_content {| db := two_channel_db |} "etcd").
  reflexivity.
Defined.

(** X12: when one package row has the name and at most two channel rows
    name that package, GetPackage succeeds as soon as there is one such
    channel row, and every channel of the package is in the manifest. *)
Theorem GetPackage_complete_up_to_two s name p0 c1 c2 :
  In p0 (package (db s)) -> package_name p0 = Some name ->
  (forall p, In p (package (db s)) -> package_name p = Some name -> p = p0) ->
  In c1 (channel (db s)) -> channel_package_name c1 = Some name ->
  (forall c, In c (channel (db s)) -> channel_package_name c = Some name ->
             c = c1 \/ c = c2) ->
  exists m,
    GetPackage s name = (Some m, None)
    /\ forall c, In c (channel (db s)) ->
                 channel_package_name c = Some name ->
                 In (manifest_channel c) (Channels m).
Proof.
  intros Hp0 Hn0 Hp Hc1 Hn1 Hc.
  set (row := fun c : channel_row =>
                (package_name p0, package_default_channel p0,
                 channel_name c, channel_head_operatorbundle_name c)).
  assert (Hrow : forall c, In c (channel (db s)) ->
                           channel_package_name c = Some name ->
                           In (row c) (GetPackage_query (db s) name)).
  { intros c Hin Hcn. apply GetPackage_query_In. exists p0, c. auto. }
  assert (Hlen : List.length (GetPackage_query (db s) name) <= 2).
  { change 2 with (List.length [row c1; row c2]).
    apply NoDup_incl_length.
    - unfold GetPackage_query. apply SqlFacts.NoDup_distinct.
    - intros r Hr. apply GetPackage_query_In in Hr.
      destruct Hr as [p [c [Hpin [Hcin [Hpn [Hcn ->]]]]]].
      rewrite (Hp p Hpin Hpn).
      destruct (Hc c Hcin Hcn) as [->| ->]; simpl; auto. }
  destruct (GetPackage_query (db s) name) as [|r rest] eqn:Q.
  { destruct (Hrow c1 Hc1 Hn1). }
  eexists. split; [apply (GetPackage_manifest s name Q)|].
  intros c Hin Hcn.
  change (In (manifest_channel c)
             (map scan_channel (firstn 2 (r :: rest)))).
  rewrite (@firstn_all2 _ 2 (r :: rest) Hlen).
  change (manifest_channel c) with (scan_channel (row c)).
  apply in_map. apply (Hrow c Hin Hcn).
Qed.

Lemma GetPackage_complete_up_to_two_witness :
  In etcd_alpha (channel two_channel_db)
  /\ exists m,
      GetPackage {| db := two_channel_db |} "etcd" = (Some m, None)
      /\ In (manifest_channel etcd_beta) (Channels m).
Proof.
  split; [left; reflexivity|].
  destruct (@GetPackage_complete_up_to_two {| db := two_channel_db |} "etcd"
              etcd_package etcd_alpha etcd_beta) as [m [E Hall]].
  - left; reflexivity.
  - reflexivity.
  - intros p [<-|[]] _. reflexivity.
  - left; reflexivity.
  - reflexivity.
  - intros c [<-|[<-|[]]] _; auto.
  - exists m. split; [exact E|]. apply Hall; [right; left|]; reflexivity.
Defined.

(** X13: every package GetPackage finds is among the names ListPackages
    returns. *)
Theorem found_package_is_listed s name m :
  GetPackage s name = (Some m, None) ->
  In name (fst (ListPackages s)) /\ In (PackageName m) (fst (ListPackages s)).
Proof.
  intros E. destruct (GetPackage_success s name E) as [r [rest [Q ->]]].
  assert (Hr : In r (GetPackage_query (db s) name))
    by (rewrite Q; left; reflexivity).
  apply GetPackage_query_In in Hr.
  destruct Hr as [p [c [Hp [_ [Hpn [_ ->]]]]]]. simpl. rewrite Hpn. simpl.
  assert (H : In name (fst (ListPackages s))).
  { apply ListPackages_In. exists p. auto. }
  split; exact H.
Qed.

Lemma found_package_is_listed_witness :
  exists m,
    GetPackage {| db := two_channel_db |} "etcd" = (Some m, None)
    /\ In "etcd"%string (fst (ListPackages {| db := two_channel_db |})).
Proof.
  eexists. split; [reflexivity|].
  eapply (@found_package_is_listed {| db := two_channel_db |} "etcd").
  reflexivity.
Defined.

(** ** Repeated entries *)

Lemma decode_present_inj a b :
  a <> None -> b <> None ->
  NullString.String (NullString.Scan a) = NullString.String (NullString.Scan b) ->
  a = b.
Proof.
  destruct a, b; simpl; intros Ha Hb E; congruence.
Qed.

(** X14: when no channel entry has a NULL package, channel or bundle name,
    GetChannelEntriesThatReplace returns no entry twice.  With NULL names it
    can: an entry whose package is NULL and one whose package is the empty
    string are both returned, as equal values. *)
Theorem GetChannelEntriesThatReplace_no_repeat :
  (forall s name,
      entries_named (db s) ->
      NoDup (fst (GetChannelEntriesThatReplace s name)))
  /\ ~ NoDup (fst (GetChannelEntriesThatReplace
                     {| db := null_package_entry_db |} "B")).
Proof.
  split.
  - intros s name Hnamed. rewrite Replace_result.
    destruct (GetChannelEntriesThatReplace_query (db s) name)
      as [|row0 rows] eqn:Q; [constructor|].
    unfold fst. rewrite <- Q.
    apply NoDup_map_NoDup_ForallPairs.
    + intros x y Hx Hy E.
      apply Replace_query_In in Hx. apply Replace_query_In in Hy.
      destruct Hx as [e [r [[He _] ->]]].
      destruct Hy as [e' [r' [[He' _] ->]]].
      destruct (Hnamed e He) as [Hp [Hc Hb]].
      destruct (Hnamed e' He') as [Hp' [Hc' Hb']].
      unfold scan_replace in E. inversion E as [[E1 E2 E3]].
      rewrite (decode_present_inj Hp Hp' E1),
        (decode_present_inj Hc Hc' E2), (decode_present_inj Hb Hb' E3).
      reflexivity.
    + unfold GetChannelEntriesThatReplace_query.
      apply SqlFacts.NoDup_distinct.
  - intros ND. vm_compute in ND. inversion ND as [|x l Hx _].
    apply Hx. left; reflexivity.
Qed.

Lemma GetChannelEntriesThatReplace_no_repeat_witness :
  entries_named chain_db
  /\ NoDup (fst (GetChannelEntriesThatReplace {| db := chain_db |} "B")).
Proof.
  assert (H : entries_named chain_db).
  { intros e He. simpl in He.
    destruct He as [<-|[<-|[<-|[<-|[]]]]]; repeat split; discriminate. }
  split; [exact H|].
  destruct GetChannelEntriesThatReplace_no_repeat as [Hnd _].
  apply (Hnd {| db := chain_db |} "B"%string H).
Defined.

(** ** A single candidate *)

(** X15: GetBundleThatProvides does not fail because several entries
    provide the API in default channels: with at least one such entry that
    has a bundle row, and no NULL payload in the bundle table, it returns a
    payload.  When exactly one entry provides the API in a default channel
    and exactly one bundle row carries its bundle name, the payload of that
    row is returned, or the "not found" error if that payload is NULL. *)
Theorem GetBundleThatProvides_candidates s g v k :
  ((exists e, default_candidate (db s) g v k e) ->
   (forall b, In b (operatorbundle (db s)) ->
              operatorbundle_bundle b <> None) ->
   exists payload, GetBundleThatProvides s g v k = (payload, None))
  /\ (forall e b,
        default_candidate (db s) g v k e ->
        (forall e', default_candidate (db s) g v k e' -> e' = e) ->
        bundle_of (db s) e b ->
        (forall b', bundle_of (db s) e b' -> b' = b) ->
        GetBundleThatProvides s g v k
        = match operatorbundle_bundle b with
          | Some payload => (payload, None)
          | None => (EmptyString, Some (bundle_not_found g v k))
          end).
Proof.
  split.
  - intros [e0 [p0 [b0 [Hp0 Hb0]]]] Hpayload.
    destruct (candidate_default_providers Hp0 Hb0) as [a0 Hin0].
    destruct (BundleThatProvides_result s g v k)
      as [[E _]|[j [rest [_ [Hj [_ R]]]]]].
    { rewrite E in Hin0. destruct Hin0. }
    destruct (default_providers_candidate _ _ _ _ _ Hj) as [_ [Hb _]].
    rewrite R. destruct (operatorbundle_bundle (dj_bundle j)) eqn:B.
    + eexists. reflexivity.
    + destruct (Hpayload _ Hb B).
  - intros e b [p0 [b0 [Hp0 Hb0]]] Hone Hb Hbone.
    destruct (candidate_default_providers Hp0 Hb0) as [a0 Hin0].
    destruct (BundleThatProvides_result s g v k)
      as [[E _]|[j [rest [_ [Hj [_ R]]]]]].
    { rewrite E in Hin0. destruct Hin0. }
    destruct (default_providers_candidate _ _ _ _ _ Hj) as [Hp' Hb'].
    assert (He : dj_entry j = e).
    { apply Hone. exists (dj_package j), (dj_bundle j). auto. }
    rewrite He in Hb'. rewrite (Hbone _ Hb') in R. exact R.
Qed.

Lemma GetBundleThatProvides_candidates_witness :
  let d := etcd_db2 false (Some "v1.0.0 manifest"%string)
                          (Some "v0.9.0 manifest"%string) in
  (exists e,
      default_candidate d "etcd.database.coreos.com" "v1" "EtcdCluster" e)
  /\ exists payload,
      GetBundleThatProvides {| db := d |}
        "etcd.database.coreos.com" "v1" "EtcdCluster" = (payload, None).
Proof.
  intros d.
  assert (H : exists e,
             default_candidate d "etcd.database.coreos.com" "v1"
                               "EtcdCluster" e).
  { exists (entry 2 "alpha" "etcd" "etcd.v0.9.0" None 1), etcd_package,
           {| operatorbundle_name := Some "etcd.v0.9.0"%string;
              operatorbundle_bundle := Some "v0.9.0 manifest"%string |}.
    split; [split; [split|]|].
    - right; left; reflexivity.
    - exists (etcd_api 2). repeat split. right; left; reflexivity.
    - repeat split. left; reflexivity.
    - split; [right; left; reflexivity | reflexivity]. }
  split; [exact H|].
  destruct (GetBundleThatProvides_candidates {| db := d |}
              "etcd.database.coreos.com" "v1" "EtcdCluster") as [Hsome _].
  apply (Hsome H).
  intros b Hb. simpl in Hb. destruct Hb as [<-|[<-|[]]]; discriminate.
Defined.

(** X16: when the entries replacing the named bundle's entry in the channel
    all lead to one bundle row, GetBundleThatReplaces returns the payload
    of that row (NULL read as the empty string). *)
Theorem GetBundleThatReplaces_single s name pkgName channelName e r b :
  replaced_by (db s) name pkgName channelName e r b ->
  (forall e' r' b', replaced_by (db s) name pkgName channelName e' r' b' ->
                    b' = b) ->
  GetBundleThatReplaces s name pkgName channelName
  = (NullString.String (NullString.Scan (operatorbundle_bundle b)), None).
Proof.
  intros H Hone. unfold GetBundleThatReplaces.
  destruct (BundleThatReplaces_query_cases (db s) name pkgName channelName)
    as [[_ Hno]|[e' [r' [b' [H' ->]]]]].
  - destruct (Hno e r b H).
  - rewrite (Hone e' r' b' H'). reflexivity.
Qed.

Lemma GetBundleThatReplaces_single_witness :
  let e := entry 3 "Ch" "P" "B" (Some 4%Z) 2 in
  let r := entry 2 "Ch" "P" "A" (Some 3%Z) 1 in
  let b := {| operatorbundle_name := Some "A"%string;
              operatorbundle_bundle := Some "payload-A"%string |} in
  replaced_by chain_db "B" "P" "Ch" e r b
  /\ GetBundleThatReplaces {| db := chain_db |} "B" "P" "Ch"
     = ("payload-A"%string, None).
Proof.
  intros e r b.
  assert (H : replaced_by chain_db "B" "P" "Ch" e r b).
  { repeat split; simpl; auto. }
  split; [exact H|].
  apply (@GetBundleThatReplaces_single {| db := chain_db |} "B" "P" "Ch"
           e r b H).
  intros e' r' b' [He' [Hr' [Hb' [Hn [_ [_ [Hrep Hbn]]]]]]].
  simpl in He', Hr', Hb'.
  destruct He' as [<-|[<-|[<-|[<-|[]]]]]; try discriminate Hn.
  destruct Hr' as [<-|[<-|[<-|[<-|[]]]]]; try discriminate Hrep.
  destruct Hb' as [<-|[<-|[<-|[<-|[]]]]]; try discriminate Hbn.
  reflexivity.
Defined.
